(** * Real-estate backend (main.py): filter builder, serializer, store access

    A shallow embedding of [src/main.py].  Python dictionaries are finite
    maps ([gmap string _]), [Optional] parameters are [option]s, exceptions
    are an explicit result type, and the module-level database handle is
    threaded through as an argument. *)

From Stdlib Require Import QArith Ascii String.
From stdpp Require Import gmap strings list fin_maps.

Local Open Scope string_scope.
Set Warnings "-register-all".

(** ** Stored values *)

(** [datetime] objects as the driver returns them (naive, no time zone). *)
Record datetime := mk_datetime {
  dt_year : N; dt_month : N; dt_day : N;
  dt_hour : N; dt_minute : N; dt_second : N; dt_microsecond : N }.

(** The values a stored document holds.  Integers and floats are kept
    apart as Python does; a finite float is represented by the rational it
    denotes (NaN and the infinities are outside the model).  Strings are
    byte strings. *)
Inductive value :=
| VNone
| VBool (b : bool)
| VInt (z : Z)
| VFloat (x : Q)
| VStr (s : string)
| VDatetime (t : datetime)
| VObjectId (hex : string)
| VList (l : list value).

(** [Dict[str, Any]] *)
Abbreviation document := (gmap string value).

(** ** datetime.isoformat *)

Definition digit (n : N) : ascii := ascii_of_N (48 + n mod 10).

(** [n] in decimal, zero-padded to exactly [w] digits (the [%0wd] of
    isoformat; the fields of a datetime always fit). *)
Fixpoint zfill (w : nat) (n : N) : string :=
  match w with
  | O => ""
  | S w' => zfill w' (n / 10) +:+ String (digit n) ""
  end.

Definition isoformat (t : datetime) : string :=
  zfill 4 (dt_year t) +:+ "-" +:+ zfill 2 (dt_month t) +:+ "-" +:+
  zfill 2 (dt_day t) +:+ "T" +:+ zfill 2 (dt_hour t) +:+ ":" +:+
  zfill 2 (dt_minute t) +:+ ":" +:+ zfill 2 (dt_second t) +:+
  (if (dt_microsecond t =? 0)%N then ""
   else "." +:+ zfill 6 (dt_microsecond t)).

(** ** serialize_doc *)

Section Serializer.
(** Python's builtin [str] on a stored value; on an ObjectId it is the
    24-digit hexadecimal form.  The serializer only needs that it returns
    a string. *)
Variable str : value → string.

(** One iteration of the loop body
    [if isinstance(v, datetime): doc[k] = v.isoformat()]. *)
Definition convert_item (doc : document) (kv : string * value) : document :=
  match kv.2 with
  | VDatetime t => <[kv.1 := VStr (isoformat t)]> doc
  | _ => doc
  end.

(** [doc] is [None] or a dictionary. *)
Definition serialize_doc (doc : option document) : document :=
  match doc with
  | None => ∅
  | Some doc =>
      if decide (doc = ∅) then ∅
      else
        (* doc = dict(doc) is a copy; maps are values here *)
        let doc :=
          match doc !! "_id" with
          | Some oid => <["id" := VStr (str oid)]> (delete "_id" doc)
          | None => doc
          end in
        (* for k, v in list(doc.items()): the snapshot is iterated, the
           dictionary is updated *)
        foldl convert_item doc (map_to_list doc)
  end.
End Serializer.

(** What the loop does to one value. *)
Definition convert_value (v : value) : value :=
  match v with
  | VDatetime t => VStr (isoformat t)
  | _ => v
  end.

Definition is_datetime (v : value) : bool :=
  match v with VDatetime _ => true | _ => false end.

(** The identity renaming of lines 37-38, on its own. *)
Definition rename_id (str : value → string) (doc : document) : document :=
  match doc !! "_id" with
  | Some oid => <["id" := VStr (str oid)]> (delete "_id" doc)
  | None => doc
  end.


(** ** Exceptions and results *)

(** The exceptions the program distinguishes: [HTTPException] and every
    other [Exception]. [except Exception] catches both. *)
Inductive exn :=
| HTTPException (status_code : Z) (detail : string)
| Exception (msg : string).

Inductive result (A : Type) :=
| Ok (a : A)
| Raise (e : exn).
Arguments Ok {A} a.
Arguments Raise {A} e.

(** [str(e)] *)
Definition exn_str (e : exn) : string :=
  match e with
  | HTTPException _ detail => detail
  | Exception msg => msg
  end.

Definition result_map {A B} (f : A → B) (r : result A) : result B :=
  match r with Ok a => Ok (f a) | Raise e => Raise e end.

Definition is_ok {A} (r : result A) : bool :=
  match r with Ok _ => true | Raise _ => false end.

(** A list comprehension whose body may raise: left to right, the first
    exception ends it. *)
Fixpoint comprehension {A B} (f : A → result B) (l : list A) : result (list B) :=
  match l with
  | [] => Ok []
  | x :: l' =>
      match f x with
      | Raise e => Raise e
      | Ok y =>
          match comprehension f l' with
          | Raise e => Raise e
          | Ok ys => Ok (y :: ys)
          end
      end
  end.

(** ** Search criteria and the filter dictionary *)

(** The query parameters of [list_properties]. *)
Record criteria := mk_criteria {
  city : option string;
  property_type : option string;
  min_price : option Q;
  max_price : option Q;
  bedrooms : option Z;
  bathrooms : option Q;
  q : option string;
  featured : option bool }.

(** What a filter dictionary holds under a field name: a bare value
    (equality) or an operator dictionary such as
    [{"$gte": 1}] or [{"$regex": "x", "$options": "i"}]. *)
Inductive condition :=
| Equals (v : value)
| Operators (ops : gmap string value).

(** What [filters] holds under a key: a condition, or (under ["$or"]) a
    list of one-level filter dictionaries. *)
Inductive filter_value :=
| Cond (c : condition)
| OrList (alts : list (gmap string condition)).

Abbreviation filters := (gmap string filter_value).

(** [{"$regex": pattern, "$options": "i"}] *)
Definition regex_i (pattern : string) : condition :=
  Operators {[ "$regex" := VStr pattern; "$options" := VStr "i" ]}.

(** Truth value of an [Optional[str]] in [if s:]. *)
Definition truthy (s : option string) : bool :=
  match s with
  | Some s => negb (String.eqb s "")
  | None => false
  end.

(** The price operator dictionary, lines 105-109. *)
Definition price_cond (c : criteria) : gmap string value :=
  let price_cond : gmap string value := ∅ in
  let price_cond :=
    match min_price c with
    | Some x => <["$gte" := VFloat x]> price_cond
    | None => price_cond
    end in
  let price_cond :=
    match max_price c with
    | Some x => <["$lte" := VFloat x]> price_cond
    | None => price_cond
    end in
  price_cond.

(** The dictionary [filters] that [list_properties] builds, lines 98-122. *)
Definition list_properties_filters (c : criteria) : filters :=
  let filters : gmap string filter_value := ∅ in
  let filters :=
    match city c with
    | Some s =>
        if truthy (Some s) then <["city" := Cond (regex_i s)]> filters
        else filters
    | None => filters
    end in
  let filters :=
    match property_type c with
    | Some s =>
        if truthy (Some s)
        then <["property_type" := Cond (regex_i ("^" +:+ s +:+ "$"))]> filters
        else filters
    | None => filters
    end in
  let filters :=
    match featured c with
    | Some b => <["featured" := Cond (Equals (VBool b))]> filters
    | None => filters
    end in
  let filters :=
    if decide (price_cond c = ∅) then filters
    else <["price" := Cond (Operators (price_cond c))]> filters in
  let filters :=
    match bedrooms c with
    | Some n => <["bedrooms" := Cond (Operators {[ "$gte" := VInt n ]})]> filters
    | None => filters
    end in
  let filters :=
    match bathrooms c with
    | Some x => <["bathrooms" := Cond (Operators {[ "$gte" := VFloat x ]})]> filters
    | None => filters
    end in
  let filters :=
    match q c with
    | Some s =>
        if truthy (Some s)
        then <["$or" := OrList [ {[ "title" := regex_i s ]};
                                 {[ "description" := regex_i s ]};
                                 {[ "city" := regex_i s ]};
                                 {[ "state" := regex_i s ]} ]]> filters
        else filters
    | None => filters
    end in
  filters.

(** The filter of [featured_properties]: [{"featured": True}]. *)
Definition featured_filter : filters :=
  {[ "featured" := Cond (Equals (VBool true)) ]}.

(** ** The store's regular expressions

    The store evaluates [$regex] with a Perl-compatible engine.  The
    fragment interpreted here: literal characters, [.], the anchors [^] and
    [$], a backslash before a non-alphanumeric character, and the
    quantifiers [*], [+], [?] on a single character or [.].  Every other
    construct (groups, alternation, classes, counted repetition, lazy and
    possessive quantifiers, alphanumeric escapes) is outside the fragment:
    [compile] gives [None], as it does for a pattern the engine rejects. *)

Inductive atom := Lit (c : ascii) | Dot.
Inductive quantifier := Once | Opt | Star | Plus.
Inductive item := Match (a : atom) (n : quantifier) | Bol | Eol.
Inductive token := TAtom (a : atom) | TQuant (n : quantifier) | TBol | TEol | TOther.

Definition in_range (lo hi : N) (c : ascii) : bool :=
  ((lo <=? N_of_ascii c) && (N_of_ascii c <=? hi))%N.

Definition is_upper (c : ascii) : bool := in_range 65 90 c.
Definition is_alnum (c : ascii) : bool :=
  in_range 48 57 c || in_range 65 90 c || in_range 97 122 c.

(** The characters with a special meaning outside a class. *)
Definition metacharacters : list ascii :=
  list_ascii_of_string "\^$.|?*+()[]{}".

Definition is_meta (c : ascii) : bool :=
  existsb (Ascii.eqb c) metacharacters.

Fixpoint tokens (p : list ascii) : list token :=
  match p with
  | [] => []
  | c :: rest =>
      if Ascii.eqb c "\" then
        match rest with
        | e :: rest' =>
            (if is_alnum e then TOther else TAtom (Lit e)) :: tokens rest'
        | [] => [TOther]
        end
      else if Ascii.eqb c "^" then TBol :: tokens rest
      else if Ascii.eqb c "$" then TEol :: tokens rest
      else if Ascii.eqb c "." then TAtom Dot :: tokens rest
      else if Ascii.eqb c "*" then TQuant Star :: tokens rest
      else if Ascii.eqb c "+" then TQuant Plus :: tokens rest
      else if Ascii.eqb c "?" then TQuant Opt :: tokens rest
      else if is_meta c then TOther :: tokens rest
      else TAtom (Lit c) :: tokens rest
  end.

(** A quantifier binds to the atom before it; one that follows anything
    else is not in the fragment. *)
Fixpoint items (ts : list token) : option (list item) :=
  match ts with
  | [] => Some []
  | TAtom a :: TQuant n :: rest => cons (Match a n) <$> items rest
  | TAtom a :: rest => cons (Match a Once) <$> items rest
  | TBol :: rest => cons Bol <$> items rest
  | TEol :: rest => cons Eol <$> items rest
  | TQuant _ :: _ => None
  | TOther :: _ => None
  end.

Definition compile (pattern : string) : option (list item) :=
  items (tokens (list_ascii_of_string pattern)).

(** ASCII lower case (option [i] folds the case of ASCII letters). *)
Definition lower (c : ascii) : ascii :=
  if is_upper c then ascii_of_N (N_of_ascii c + 32) else c.

Definition newline : ascii := ascii_of_N 10.

Definition atom_matches (caseless : bool) (a : atom) (c : ascii) : bool :=
  match a with
  | Lit l => if caseless then Ascii.eqb (lower l) (lower c) else Ascii.eqb l c
  | Dot => negb (Ascii.eqb c newline)
  end.

(** [$] holds at the end of the subject and before a final newline. *)
Definition at_end (s : list ascii) : bool :=
  match s with
  | [] => true
  | [c] => Ascii.eqb c newline
  | _ => false
  end.

(** Does the pattern match a prefix of [s]?  [start] tells whether [s] is
    the whole subject (for [^]). *)
Fixpoint match_here (caseless : bool) (r : list item) : bool → list ascii → bool :=
  match r with
  | [] => fun _ _ => true
  | Bol :: r' => fun start s => start && match_here caseless r' start s
  | Eol :: r' => fun start s => at_end s && match_here caseless r' start s
  | Match a Once :: r' => fun _ s =>
      match s with
      | c :: s' => atom_matches caseless a c && match_here caseless r' false s'
      | [] => false
      end
  | Match a Opt :: r' => fun start s =>
      match_here caseless r' start s ||
      match s with
      | c :: s' => atom_matches caseless a c && match_here caseless r' false s'
      | [] => false
      end
  | Match a Star :: r' =>
      fix star (start : bool) (s : list ascii) : bool :=
        match_here caseless r' start s ||
        match s with
        | c :: s' => atom_matches caseless a c && star false s'
        | [] => false
        end
  | Match a Plus :: r' => fun _ s =>
      match s with
      | c :: s' =>
          atom_matches caseless a c &&
          (fix star (start : bool) (s : list ascii) : bool :=
             match_here caseless r' start s ||
             match s with
             | c :: s' => atom_matches caseless a c && star false s'
             | [] => false
             end) false s'
      | [] => false
      end
  end.

(** Unanchored search: a match may start at any position. *)
Fixpoint search_from (caseless : bool) (r : list item) (start : bool)
    (s : list ascii) : bool :=
  match_here caseless r start s ||
  match s with
  | _ :: s' => search_from caseless r false s'
  | [] => false
  end.

Definition regex_search (caseless : bool) (r : list item) (subject : string) : bool :=
  search_from caseless r true (list_ascii_of_string subject).

(** ** The store's query semantics

    A model of how the store evaluates a filter dictionary on a document,
    for the operators this program emits: equality, [$gte], [$lte],
    [$regex] with [$options], and a top-level [$or].  All entries of a
    filter must hold.  A condition on an array-valued field holds when it
    holds for the array or for one of its elements. *)

Definition number (v : value) : option Q :=
  match v with
  | VInt z => Some (inject_Z z)
  | VFloat x => Some x
  | _ => None
  end.

(** [v >= bound] on numbers; values of another type do not compare with a
    number. *)
Definition value_gte (bound v : value) : bool :=
  match number bound, number v with
  | Some b, Some x => Qle_bool b x
  | _, _ => false
  end.

Definition value_lte (bound v : value) : bool :=
  match number bound, number v with
  | Some b, Some x => Qle_bool x b
  | _, _ => false
  end.

Definition datetime_eqb (a b : datetime) : bool :=
  ((dt_year a =? dt_year b) && (dt_month a =? dt_month b) &&
   (dt_day a =? dt_day b) && (dt_hour a =? dt_hour b) &&
   (dt_minute a =? dt_minute b) && (dt_second a =? dt_second b) &&
   (dt_microsecond a =? dt_microsecond b))%N.

(** Equality of stored values; numbers compare by value across int and
    float, a boolean is not a number. *)
Fixpoint value_eqb (a b : value) : bool :=
  match a, b with
  | VNone, VNone => true
  | VBool x, VBool y => Bool.eqb x y
  | VStr x, VStr y => String.eqb x y
  | VDatetime x, VDatetime y => datetime_eqb x y
  | VObjectId x, VObjectId y => String.eqb x y
  | VList xs, VList ys =>
      (fix all2 (xs ys : list value) : bool :=
         match xs, ys with
         | [], [] => true
         | x :: xs', y :: ys' => value_eqb x y && all2 xs' ys'
         | _, _ => false
         end) xs ys
  | (VInt _ | VFloat _), (VInt _ | VFloat _) =>
      match number a, number b with
      | Some x, Some y => Qeq_bool x y
      | _, _ => false
      end
  | _, _ => false
  end.

(** The values a condition is tried on: the field's value and, for an
    array, each element. *)
Definition candidates (v : value) : list value :=
  match v with
  | VList l => v :: l
  | _ => [v]
  end.

Definition holds_on (test : value → bool) (field : option value) : bool :=
  match field with
  | Some v => existsb test (candidates v)
  | None => false
  end.

Definition has_option_i (ops : gmap string value) : bool :=
  match ops !! "$options" with
  | Some (VStr o) => existsb (Ascii.eqb "i") (list_ascii_of_string o)
  | _ => false
  end.

Definition regex_test (caseless : bool) (r : list item) (v : value) : bool :=
  match v with
  | VStr s => regex_search caseless r s
  | _ => false
  end.

Definition operators_hold (ops : gmap string value) (field : option value) : bool :=
  match ops !! "$gte" with
  | Some b => holds_on (value_gte b) field
  | None => true
  end &&
  match ops !! "$lte" with
  | Some b => holds_on (value_lte b) field
  | None => true
  end &&
  match ops !! "$regex" with
  | Some (VStr p) =>
      match compile p with
      | Some r => holds_on (regex_test (has_option_i ops) r) field
      | None => false
      end
  | Some _ => false
  | None => true
  end.

Definition cond_holds (c : condition) (field : option value) : bool :=
  match c with
  | Equals VNone =>
      match field with
      | None => true
      | Some _ => holds_on (value_eqb VNone) field
      end
  | Equals v => holds_on (value_eqb v) field
  | Operators ops => operators_hold ops field
  end.

Definition alternative_holds (doc : document) (alt : gmap string condition) : bool :=
  forallb (fun kv => cond_holds kv.2 (doc !! kv.1)) (map_to_list alt).

Definition entry_holds (doc : document) (kv : string * filter_value) : bool :=
  match kv.2 with
  | Cond c => cond_holds c (doc !! kv.1)
  | OrList alts => String.eqb kv.1 "$or" && existsb (alternative_holds doc) alts
  end.

(** Does the document satisfy the filter? *)
Definition matches (f : filters) (doc : document) : bool :=
  forallb (entry_holds doc) (map_to_list f).

(** The store rejects a query whose [$regex] does not compile. *)
Definition cond_valid (c : condition) : bool :=
  match c with
  | Equals _ => true
  | Operators ops =>
      match ops !! "$regex" with
      | Some (VStr p) => bool_decide (is_Some (compile p))
      | Some _ => false
      | None => true
      end
  end.

Definition entry_valid (kv : string * filter_value) : bool :=
  match kv.2 with
  | Cond c => cond_valid c
  | OrList alts =>
      forallb (fun alt : gmap string condition =>
                 forallb (fun kc => cond_valid kc.2) (map_to_list alt)) alts
  end.

Definition filters_valid (f : filters) : bool :=
  forallb entry_valid (map_to_list f).

(** ** The application

    What [main.py] imports and does not define is a parameter here:
    [get_documents], [create_document] and the handle [db] of the database
    module, [PropertyOut] (the schema's validating constructor), [ObjectId]
    and the clock.  [S] is the state of the world behind the handle; every
    call may change it and may raise. *)

(** The two driver calls made on [db["..."]]. *)
Record database (S : Type) := mk_database {
  count_documents : string → filters → S → result nat * S;
  find_one : string → filters → S → result (option document) * S }.
Arguments count_documents {S}.
Arguments find_one {S}.

Record SeedResult := mk_SeedResult { inserted : nat }.
Record InquiryResult := mk_InquiryResult { success : bool }.

(** [if not doc] on the result of [find_one]: [None] or an empty dict. *)
Definition falsy (doc : option document) : bool :=
  match doc with
  | None => true
  | Some d => bool_decide (d = ∅)
  end.

(** The fixed sample list of [seed_properties]; the three [listed_at]
    values are the three clock readings. *)
(** A dictionary literal: later entries win. *)
Definition dict (items : list (string * value)) : document :=
  foldl (fun d kv => <[kv.1 := kv.2]> d) ∅ items.

Definition sample_data (t1 t2 t3 : datetime) : list document :=
  [ dict [ ("title", VStr "Modern Family House");
       ("description", VStr "Spacious 4-bedroom home with open floor plan and large backyard.");
       ("price", VInt 549000);
       ("address", VStr "123 Maple Street");
       ("city", VStr "Springfield");
       ("state", VStr "IL");
       ("zip_code", VStr "62704");
       ("bedrooms", VInt 4);
       ("bathrooms", VFloat (5 # 2));
       ("area_sqft", VInt 2400);
       ("property_type", VStr "House");
       ("images", VList [ VStr "https://images.unsplash.com/photo-1572120360610-d971b9d7767c";
                           VStr "https://images.unsplash.com/photo-1560518883-ce09059eeffa" ]);
       ("amenities", VList [ VStr "Garage"; VStr "Garden"; VStr "Central Air" ]);
       ("featured", VBool true);
       ("status", VStr "For Sale");
       ("listed_at", VDatetime t1) ];
    dict [ ("title", VStr "Downtown City Apartment");
       ("description", VStr "Stylish 2-bed apartment close to shops, cafes, and public transit.");
       ("price", VInt 329000);
       ("address", VStr "456 Oak Avenue, Apt 12B");
       ("city", VStr "Metro City");
       ("state", VStr "NY");
       ("zip_code", VStr "10001");
       ("bedrooms", VInt 2);
       ("bathrooms", VFloat 1);
       ("area_sqft", VInt 900);
       ("property_type", VStr "Apartment");
       ("images", VList [ VStr "https://images.unsplash.com/photo-1505693416388-ac5ce068fe85";
                           VStr "https://images.unsplash.com/photo-1501183638710-841dd1904471" ]);
       ("amenities", VList [ VStr "Elevator"; VStr "Doorman"; VStr "Gym" ]);
       ("featured", VBool true);
       ("status", VStr "For Sale");
       ("listed_at", VDatetime t2) ];
    dict [ ("title", VStr "Cozy Suburban Condo");
       ("description", VStr "Bright 1-bedroom condo with balcony and community pool.");
       ("price", VInt 189000);
       ("address", VStr "789 Pine Lane, Unit 305");
       ("city", VStr "Lakeside");
       ("state", VStr "CA");
       ("zip_code", VStr "92040");
       ("bedrooms", VInt 1);
       ("bathrooms", VFloat 1);
       ("area_sqft", VInt 650);
       ("property_type", VStr "Condo");
       ("images", VList [ VStr "https://images.unsplash.com/photo-1493809842364-78817add7ffb";
                           VStr "https://images.unsplash.com/photo-1512917774080-9991f1c4c750" ]);
       ("amenities", VList [ VStr "Pool"; VStr "Clubhouse" ]);
       ("featured", VBool false);
       ("status", VStr "For Sale");
       ("listed_at", VDatetime t3) ] ].

Section Application.
Context {S out : Type}.
Variable str : value → string.
Variable PropertyOut : document → result out.
Variable get_documents : string → filters → S → result (list document) * S.
Variable create_document : string → document → S → result string * S.
Variable db : option (database S).
Variable ObjectId : option (string → result value).
Variable utcnow : S → datetime * S.

(** Computations that read and change the world and may raise. *)
Definition M (A : Type) : Type := S → result A * S.

Definition ret {A} (a : A) : M A := fun s => (Ok a, s).
Definition raise {A} (e : exn) : M A := fun s => (Raise e, s).
Definition bind {A B} (m : M A) (k : A → M B) : M B :=
  fun s =>
    match m s with
    | (Ok a, s') => k a s'
    | (Raise e, s') => (Raise e, s')
    end.
Definition lift {A} (r : result A) : M A := fun s => (r, s).
(** [try: m  except ...: handler] *)
Definition try_except {A} (m : M A) (handler : exn → M A) : M A :=
  fun s =>
    match m s with
    | (Ok a, s') => (Ok a, s')
    | (Raise e, s') => handler e s'
    end.

Notation "'let!' x ':=' m 'in' k" := (bind m (fun x => k))
  (at level 10, x pattern, m at level 100, k at level 200, only parsing).

(** The comprehension building a [PropertyOut] from [serialize_doc(d)]
    for each [d] in [docs]. *)
Definition serialize_all (docs : list document) : result (list out) :=
  comprehension (fun d => PropertyOut (serialize_doc str (Some d))) docs.

(** The [try] block of [list_properties]. *)
Definition list_properties_body (c : criteria) : M (list out) :=
  let filters := list_properties_filters c in
  let! docs := get_documents "property" filters in
  lift (serialize_all docs).

Definition list_properties (c : criteria) : M (list out) :=
  try_except (list_properties_body c) (fun _ => ret []).

Definition featured_properties_body : M (list out) :=
  let! docs := get_documents "property" featured_filter in
  lift (serialize_all docs).

Definition featured_properties : M (list out) :=
  try_except featured_properties_body (fun _ => ret []).

Definition get_property (property_id : string) : M out :=
  match db with
  | None => raise (HTTPException 503 "Database not available")
  | Some db =>
      try_except
        (let! oid := lift (match ObjectId with
                     | Some ctor => ctor property_id
                     | None => Ok (VStr property_id)
                     end) in
         let! doc := find_one db "property" {[ "_id" := Cond (Equals oid) ]} in
         if falsy doc
         then raise (HTTPException 404 "Property not found")
         else lift (PropertyOut (serialize_doc str doc)))
        (fun e =>
           match e with
           | HTTPException _ _ => raise e
           | Exception _ =>
               raise (HTTPException 400 ("Invalid id: " +:+ exn_str e))
           end)
  end.

(** The loop of [seed_properties], lines 235-241. *)
Fixpoint insert_each (items : list document) (inserted : nat) : M nat :=
  match items with
  | [] => ret inserted
  | item :: rest =>
      let! inserted' := try_except
                          (let! _ := create_document "property" item in
                           ret (inserted + 1))
                          (fun _ => ret inserted) in
      insert_each rest inserted'
  end.

Definition seed_properties : M SeedResult :=
  match db with
  | None => raise (HTTPException 503 "Database not available")
  | Some db =>
      let! existing := count_documents db "property" ∅ in
      if (0 <? existing)%nat then ret (mk_SeedResult 0)
      else
        let! t1 := (fun s => let '(t, s') := utcnow s in (Ok t, s')) in
        let! t2 := (fun s => let '(t, s') := utcnow s in (Ok t, s')) in
        let! t3 := (fun s => let '(t, s') := utcnow s in (Ok t, s')) in
        let! n := insert_each (sample_data t1 t2 t3) 0 in
        ret (mk_SeedResult n)
  end.

Definition create_inquiry (inquiry : document) : M InquiryResult :=
  try_except
    (let! _ := create_document "inquiry" inquiry in
     ret (mk_InquiryResult true))
    (fun e =>
       raise (HTTPException 503 ("Could not save inquiry: " +:+ exn_str e))).

(** Every item of the list attempted in turn, whatever the outcome of
    the ones before: the outcomes in order, and the world afterwards. *)
Fixpoint attempts (items : list document) (s : S) : list (result string) * S :=
  match items with
  | [] => ([], s)
  | item :: rest =>
      let '(r, s') := create_document "property" item s in
      let '(rs, s'') := attempts rest s' in
      (r :: rs, s'')
  end.
End Application.

(** ** A model of the store and of the database module

    The store holds named collections.  Each driver round trip consumes the
    next entry of [faults]; [true] makes the call fail with a driver error
    and leaves the collections as they were. *)

Record store := mk_store {
  collections : gmap string (list document);
  faults : list bool;
  next_id : N;
  clock : datetime }.

Definition collection (st : store) (name : string) : list document :=
  default [] (collections st !! name).

Definition with_faults (fs : list bool) (st : store) : store :=
  {| collections := collections st; faults := fs;
     next_id := next_id st; clock := clock st |}.

Definition round_trip {A} (op : store → result A * store) (st : store)
    : result A * store :=
  match faults st with
  | true :: fs => (Raise (Exception "connection failure"), with_faults fs st)
  | false :: fs => op (with_faults fs st)
  | [] => op st
  end.

(** The documents of a collection that satisfy the filter, in stored
    order; a filter with a rejected [$regex] is an error. *)
Definition store_find (name : string) (f : filters) (st : store)
    : result (list document) * store :=
  if filters_valid f
  then (Ok (List.filter (matches f) (collection st name)), st)
  else (Raise (Exception "invalid regular expression"), st).

Definition store_count_documents (name : string) (f : filters)
    : store → result nat * store :=
  round_trip (fun st =>
    match store_find name f st with
    | (Ok docs, st') => (Ok (length docs), st')
    | (Raise e, st') => (Raise e, st')
    end).

Definition store_find_one (name : string) (f : filters)
    : store → result (option document) * store :=
  round_trip (fun st =>
    match store_find name f st with
    | (Ok docs, st') => (Ok (head docs), st')
    | (Raise e, st') => (Raise e, st')
    end).

Definition hex_digit (n : N) : ascii :=
  if (n mod 16 <? 10)%N then ascii_of_N (48 + n mod 16)
  else ascii_of_N (87 + n mod 16).

Fixpoint hexfill (w : nat) (n : N) : string :=
  match w with
  | O => ""
  | S w' => hexfill w' (n / 16) +:+ String (hex_digit n) ""
  end.

(** Insert one document; an identity is assigned when the document has
    none, and an identity already in the collection is refused. *)
Definition store_insert_one (name : string) (doc : document)
    : store → result value * store :=
  round_trip (fun st =>
    let oid := default (VObjectId (hexfill 24 (next_id st))) (doc !! "_id") in
    if existsb (fun d => holds_on (value_eqb oid) (d !! "_id")) (collection st name)
    then (Raise (Exception "duplicate key"), st)
    else (Ok oid,
          {| collections :=
               <[name := (collection st name ++ [<["_id" := oid]> doc])%list]> (collections st);
             faults := faults st;
             next_id := next_id st + 1;
             clock := clock st |})).

Definition is_hex (c : ascii) : bool :=
  in_range 48 57 c || in_range 65 70 c || in_range 97 102 c.

(** [bson.ObjectId] on a string: 24 hexadecimal digits, or [InvalidId]. *)
Definition bson_ObjectId (s : string) : result value :=
  let cs := list_ascii_of_string s in
  if (length cs =? 24)%nat && forallb is_hex cs
  then Ok (VObjectId (string_of_list_ascii (map lower cs)))
  else Raise (Exception (s +:+ " is not a valid ObjectId")).

(** [str] on the identities of this model: an ObjectId gives its
    hexadecimal form, a string itself. *)
Definition id_str (v : value) : string :=
  match v with
  | VObjectId hex => hex
  | VStr s => s
  | _ => ""
  end.

(** The driver calls of a handle are the store's. *)
Definition store_database : database store :=
  {| count_documents := store_count_documents;
     find_one := store_find_one |}.

(** Modelled from the spec: the handle [db] of the database module
    (database.py is not among the sources).  [connected] tells whether the
    handle was initialised. *)
Definition database_db (connected : bool) : option (database store) :=
  if connected then Some store_database else None.

(** Modelled from the spec: [get_documents] of the database module
    (database.py is not among the sources): "executes the predicate" on the
    named collection; without a handle the call fails. *)
Definition database_get_documents (connected : bool) (name : string) (f : filters)
    : store → result (list document) * store :=
  if connected then round_trip (store_find name f)
  else fun st => (Raise (Exception "Database not available"), st).

(** Modelled from the spec: [create_document] of the database module
    (database.py is not among the sources): "create(collection, document)
    -> identity", failing when the store does. *)
Definition database_create_document (connected : bool) (name : string)
    (doc : document) : store → result string * store :=
  if connected
  then fun st =>
         match store_insert_one name doc st with
         | (Ok oid, st') => (Ok (id_str oid), st')
         | (Raise e, st') => (Raise e, st')
         end
  else fun st => (Raise (Exception "Database not available"), st).

Definition store_utcnow (st : store) : datetime * store := (clock st, st).

(** The endpoints over the model; the validating constructor accepts every
    document as it is. *)
Definition accept_all (d : document) : result document := Ok d.

Definition model_list_properties (connected : bool) :=
  list_properties id_str accept_all (database_get_documents connected).
Definition model_featured_properties (connected : bool) :=
  featured_properties id_str accept_all (database_get_documents connected).
Definition model_get_property (connected : bool) :=
  get_property id_str accept_all (database_db connected) (Some bson_ObjectId).
Definition model_seed_properties (connected : bool) :=
  seed_properties (database_create_document connected) (database_db connected)
                  store_utcnow.

(** ** The words of the specification *)

Definition chars (s : string) : list ascii := list_ascii_of_string s.





(** The numbers a field holds. *)
Definition field_numbers (doc : document) (k : string) : list Q :=
  match doc !! k with
  | Some v => omap number (candidates v)
  | None => []
  end.

(** The criteria with every field absent. *)
Definition no_criteria : criteria :=
  mk_criteria None None None None None None None None.

Definition count_ok {A} (rs : list (result A)) : nat :=
  length (List.filter is_ok rs).



(** The statements of the filter builder one at a time, as functions on
    the dictionary built so far. *)
Definition add_city (c : criteria) (f : filters) : filters :=
  match city c with
  | Some s => if truthy (Some s) then <["city" := Cond (regex_i s)]> f else f
  | None => f
  end.

Definition add_property_type (c : criteria) (f : filters) : filters :=
  match property_type c with
  | Some s =>
      if truthy (Some s)
      then <["property_type" := Cond (regex_i ("^" +:+ s +:+ "$"))]> f
      else f
  | None => f
  end.

Definition add_featured (c : criteria) (f : filters) : filters :=
  match featured c with
  | Some b => <["featured" := Cond (Equals (VBool b))]> f
  | None => f
  end.

Definition add_price (c : criteria) (f : filters) : filters :=
  if decide (price_cond c = ∅) then f
  else <["price" := Cond (Operators (price_cond c))]> f.

Definition add_bedrooms (c : criteria) (f : filters) : filters :=
  match bedrooms c with
  | Some n => <["bedrooms" := Cond (Operators {[ "$gte" := VInt n ]})]> f
  | None => f
  end.

Definition add_bathrooms (c : criteria) (f : filters) : filters :=
  match bathrooms c with
  | Some x => <["bathrooms" := Cond (Operators {[ "$gte" := VFloat x ]})]> f
  | None => f
  end.

(** The OR-group of the free-text query. *)
Definition or_group (s : string) : filter_value :=
  OrList [ {[ "title" := regex_i s ]};
           {[ "description" := regex_i s ]};
           {[ "city" := regex_i s ]};
           {[ "state" := regex_i s ]} ].

Definition add_q (c : criteria) (f : filters) : filters :=
  match q c with
  | Some s => if truthy (Some s) then <["$or" := or_group s]> f else f
  | None => f
  end.

(** What one key contributes to the conjunction: nothing when absent. *)
Definition clause_holds (f : filters) (doc : document) (k : string) : bool :=
  match f !! k with
  | Some fv => entry_holds doc (k, fv)
  | None => true
  end.




(** ** Concrete inputs used below *)

Definition only_q (s : string) : criteria :=
  mk_criteria None None None None None None (Some s) None.
Definition only_city (s : string) : criteria :=
  mk_criteria (Some s) None None None None None None None.
Definition only_price (lo hi : Q) : criteria :=
  mk_criteria None None (Some lo) (Some hi) None None None None.

Definition doc_title_x : document := {[ "title" := VStr "x" ]}.
Definition doc_type_A : document := {[ "property_type" := VStr "A" ]}.
Definition doc_city_x : document := {[ "city" := VStr "x" ]}.

Definition some_time : datetime := mk_datetime 2024 1 2 3 4 5 0.

(** An empty store with no fault pending, and the same store seeded. *)
Definition empty_store : store := mk_store ∅ [] 1 some_time.
Definition seeded_store : store := (model_seed_properties true empty_store).2.

(** A store holding three small documents, no fault pending. *)
Definition fixture_store : store :=
  mk_store {[ "property" := [doc_title_x; doc_type_A; doc_city_x] ]} [] 1 some_time.

Definition doc_price (p : Z) : document := {[ "price" := VInt p ]}.

(** ** The diagnostic endpoint

    [test_database] reads two more attributes of the handle: its name and
    the listing of collection names. *)
Record database_info (S : Type) := mk_database_info {
  db_name : option string;
  list_collection_names : S → result (list string) * S }.
Arguments db_name {S}.
Arguments list_collection_names {S}.

(** [s[:n]] on a string. *)
Definition string_prefix (n : nat) (s : string) : string := substring 0 n s.

(** The dictionary [response] as first assigned, lines 58-65. *)
Definition initial_response : document :=
  dict [ ("backend", VStr "✅ Running");
         ("database", VStr "❌ Not Available");
         ("database_url", VNone);
         ("database_name", VNone);
         ("connection_status", VStr "Not Connected");
         ("collections", VList []) ].

Section Diagnostics.
Context {S : Type}.
(** [os.getenv] *)
Variable getenv : string → option string.
Variable db : option (database_info S).

(** Nothing in the outer [try] block can raise outside the inner one
    (assignments, [os.getenv], [getattr] with a default), so the outer
    handler has no case here and the endpoint returns its dictionary. *)
Definition test_database (s : S) : document * S :=
  let response := initial_response in
  match db with
  | Some db =>
      let response := <["database" := VStr "✅ Available"]> response in
      let response :=
        <["database_url" :=
            VStr (if truthy (getenv "DATABASE_URL") then "✅ Set" else "❌ Not Set")]>
          response in
      let response :=
        <["database_name" :=
            VStr (match db_name db with
                  | Some n => if truthy (Some n) then n else "Unknown"
                  | None => "Unknown"
                  end)]> response in
      let response := <["connection_status" := VStr "Connected"]> response in
      match list_collection_names db s with
      | (Ok collections, s') =>
          let response :=
            <["collections" := VList (VStr <$> take 10 collections)]> response in
          let response := <["database" := VStr "✅ Connected & Working"]> response in
          (response, s')
      | (Raise e, s') =>
          let response :=
            <["database" :=
                VStr ("⚠️ Connected but Error: " +:+ string_prefix 80 (exn_str e))]>
              response in
          (response, s')
      end
  | None =>
      let response := <["database" := VStr "⚠️ Available but not initialized"]> response in
      (response, s)
  end.
End Diagnostics.

(** ** Words for the further properties *)

(** An optional parameter either dropped or left as it was. *)
Definition dropped_or_kept {A} (o' o : option A) : Prop := o' = None ∨ o' = o.

(** [c'] asks for no more than [c]: every parameter of [c'] is absent or
    the one of [c]. *)
Definition relaxes (c' c : criteria) : Prop :=
  dropped_or_kept (city c') (city c) ∧
  dropped_or_kept (property_type c') (property_type c) ∧
  dropped_or_kept (min_price c') (min_price c) ∧
  dropped_or_kept (max_price c') (max_price c) ∧
  dropped_or_kept (bedrooms c') (bedrooms c) ∧
  dropped_or_kept (bathrooms c') (bathrooms c) ∧
  dropped_or_kept (q c') (q c) ∧
  dropped_or_kept (featured c') (featured c).

Definition is_http (e : exn) : bool :=
  match e with HTTPException _ _ => true | Exception _ => false end.

(** The criteria with only the featured flag given. *)
Definition only_featured (b : bool) : criteria :=
  mk_criteria None None None None None None None (Some b).


Definition doc_with_id : document :=
  {[ "_id" := VObjectId "00000000000000000000002a"; "id" := VStr "old";
     "title" := VStr "Loft" ]}.


Definition info_listing (names : list string) : database_info store :=
  {| db_name := None;
     list_collection_names := fun st => (Ok names, st) |}.

(** A constructor that rejects a document without a title. *)
Definition require_title (d : document) : result document :=
  match d !! "title" with
  | Some _ => Ok d
  | None => Raise (Exception "title: field required")
  end.

Definition criteria_metro_priced : criteria :=
  mk_criteria (Some "metro") None (Some 200000%Q) (Some 400000%Q)
              None None None None.
Definition doc_metro : document :=
  {[ "city" := VStr "Metro City"; "price" := VInt 329000 ]}.
Definition doc_not_featured : document := {[ "featured" := VBool false ]}.

Definition twelve_names : list string :=
  ["a"; "b"; "c"; "d"; "e"; "f"; "g"; "h"; "i"; "j"; "k"; "l"].

(** * Properties *)

(** ** The serializer *)

Example isoformat_ex :
  isoformat (mk_datetime 2024 3 7 9 5 0 0) = "2024-03-07T09:05:00".
Proof. reflexivity. Qed.

Example isoformat_us_ex :
  isoformat (mk_datetime 2024 12 31 23 59 59 1500) = "2024-12-31T23:59:59.001500".
Proof. reflexivity. Qed.

Lemma convert_value_idem v : convert_value (convert_value v) = convert_value v.
Proof. by destruct v. Qed.

Lemma convert_value_not_datetime v : is_datetime (convert_value v) = false.
Proof. by destruct v. Qed.

(** The loop over a snapshot with distinct keys converts exactly the
    entries of the snapshot that hold a datetime. *)
Lemma foldl_convert_item_lookup (l : list (string * value)) (acc : document) k :
  NoDup l.*1 →
  foldl convert_item acc l !! k =
    match (list_to_map l : document) !! k with
    | Some (VDatetime t) => Some (VStr (isoformat t))
    | _ => acc !! k
    end.
Proof.
  revert acc. induction l as [|[k0 v0] l IH]; intros acc Hnd; simpl.
  - by rewrite lookup_empty.
  - apply NoDup_cons in Hnd as [Hk0 Hnd]. rewrite IH by done.
    destruct (decide (k0 = k)) as [->|Hne].
    + rewrite lookup_insert_eq.
      rewrite (not_elem_of_list_to_map_1 (M := gmap string)) by done.
      unfold convert_item; simpl. destruct v0; try done.
      by rewrite lookup_insert_eq.
    + rewrite lookup_insert_ne by done.
      destruct (list_to_map l !! k) as [[]|]; try done;
        unfold convert_item; simpl; destruct v0; try done;
        by rewrite lookup_insert_ne.
Qed.

Lemma convert_loop_fmap (doc : document) :
  foldl convert_item doc (map_to_list doc) = convert_value <$> doc.
Proof.
  apply map_eq; intros k.
  rewrite foldl_convert_item_lookup by apply NoDup_fst_map_to_list.
  rewrite list_to_map_to_list, lookup_fmap.
  by destruct (doc !! k) as [[]|].
Qed.

Lemma serialize_doc_unfold str (doc : document) :
  doc ≠ ∅ →
  serialize_doc str (Some doc) = convert_value <$> rename_id str doc.
Proof.
  intros Hne. unfold serialize_doc, rename_id.
  destruct (decide (doc = ∅)); [done|].
  apply convert_loop_fmap.
Qed.

Lemma rename_id_no_raw_id str (doc : document) : rename_id str doc !! "_id" = None.
Proof.
  unfold rename_id. destruct (doc !! "_id") eqn:E; [|done].
  rewrite lookup_insert_ne by done. apply lookup_delete_eq.
Qed.

Lemma serialize_doc_no_raw_id str doc : serialize_doc str doc !! "_id" = None.
Proof.
  destruct doc as [doc|]; [|done].
  destruct (decide (doc = ∅)) as [->|Hne]; [done|].
  rewrite serialize_doc_unfold, lookup_fmap by done.
  by rewrite rename_id_no_raw_id.
Qed.

Lemma serialize_doc_no_datetime str doc k v :
  serialize_doc str doc !! k = Some v → is_datetime v = false.
Proof.
  destruct doc as [doc|]; [|done].
  destruct (decide (doc = ∅)) as [->|Hne]; [done|].
  rewrite serialize_doc_unfold, lookup_fmap by done.
  destruct (rename_id str doc !! k); simpl; [|done].
  intros [= <-]. apply convert_value_not_datetime.
Qed.

Lemma serialize_doc_fixed str (doc : document) :
  doc !! "_id" = None →
  (∀ k v, doc !! k = Some v → is_datetime v = false) →
  serialize_doc str (Some doc) = doc.
Proof.
  intros Hid Hdt.
  destruct (decide (doc = ∅)) as [->|Hne]; [done|].
  rewrite serialize_doc_unfold by done. unfold rename_id. rewrite Hid.
  apply map_eq; intros k. rewrite lookup_fmap.
  destruct (doc !! k) as [v|] eqn:E; [|done]. simpl.
  specialize (Hdt _ _ E). by destruct v.
Qed.

(** C9: serialize_doc is idempotent: serializing its own output changes
    nothing, because the output has no "_id" key and holds no datetime;
    None and the empty dictionary both give the empty dictionary. *)
Theorem serialize_doc_idempotent (str : value → string) :
  (∀ doc : option document,
     serialize_doc str (Some (serialize_doc str doc)) = serialize_doc str doc) ∧
  (∀ doc : option document, serialize_doc str doc !! "_id" = None) ∧
  (∀ (doc : option document) k t, serialize_doc str doc !! k ≠ Some (VDatetime t)) ∧
  serialize_doc str None = ∅ ∧
  serialize_doc str (Some ∅) = ∅.
Proof.
  split_and!; try done.
  - intros doc. apply serialize_doc_fixed.
    + apply serialize_doc_no_raw_id.
    + intros k v. apply serialize_doc_no_datetime.
  - apply serialize_doc_no_raw_id.
  - intros doc k t H. by apply serialize_doc_no_datetime in H.
Qed.

Example serialize_doc_ex :
  serialize_doc id_str
    (Some (dict [ ("_id", VObjectId "00000000000000000000002a");
                  ("title", VStr "Loft");
                  ("listed_at", VDatetime (mk_datetime 2024 3 7 9 5 0 0)) ]))
  = dict [ ("id", VStr "00000000000000000000002a");
           ("title", VStr "Loft");
           ("listed_at", VStr "2024-03-07T09:05:00") ].
Proof. vm_compute. reflexivity. Qed.

(** ** The pattern fragment on plain text *)

Lemma chars_app s t : chars (s +:+ t) = (chars s ++ chars t)%list.
Proof.
  unfold chars. induction s as [|c s IH]; simpl; [done|]. by rewrite <- IH.
Qed.

Lemma chars_inj s t : chars s = chars t → s = t.
Proof.
  unfold chars. intros H.
  rewrite <- (string_of_list_ascii_of_string s), H.
  apply string_of_list_ascii_of_string.
Qed.
















(** ** The filter dictionary, key by key *)

Lemma list_properties_filters_steps c :
  list_properties_filters c =
    add_q c (add_bathrooms c (add_bedrooms c (add_price c
      (add_featured c (add_property_type c (add_city c ∅)))))).
Proof. reflexivity. Qed.

Ltac step_lookup :=
  intros; unfold add_city, add_property_type, add_featured, add_price,
    add_bedrooms, add_bathrooms, add_q;
  repeat (case_match || case_decide); simplify_map_eq; done.

Lemma add_city_ne c f k : k ≠ "city" → add_city c f !! k = f !! k.
Proof. step_lookup. Qed.
Lemma add_property_type_ne c f k :
  k ≠ "property_type" → add_property_type c f !! k = f !! k.
Proof. step_lookup. Qed.
Lemma add_featured_ne c f k : k ≠ "featured" → add_featured c f !! k = f !! k.
Proof. step_lookup. Qed.
Lemma add_price_ne c f k : k ≠ "price" → add_price c f !! k = f !! k.
Proof. step_lookup. Qed.
Lemma add_bedrooms_ne c f k : k ≠ "bedrooms" → add_bedrooms c f !! k = f !! k.
Proof. step_lookup. Qed.
Lemma add_bathrooms_ne c f k : k ≠ "bathrooms" → add_bathrooms c f !! k = f !! k.
Proof. step_lookup. Qed.
Lemma add_q_ne c f k : k ≠ "$or" → add_q c f !! k = f !! k.
Proof. step_lookup. Qed.

Ltac skip_steps :=
  rewrite ?add_q_ne, ?add_bathrooms_ne, ?add_bedrooms_ne, ?add_price_ne,
    ?add_featured_ne, ?add_property_type_ne, ?add_city_ne by done.

(** Look one key up: pass the statements for other keys, split on the one
    statement for this key, pass the rest. *)
Ltac key_lookup step :=
  rewrite list_properties_filters_steps; skip_steps; unfold step;
  repeat (case_match || case_decide);
  rewrite ?lookup_insert_eq; skip_steps; simplify_eq; done.

Lemma filters_city c :
  list_properties_filters c !! "city" =
    match city c with
    | Some s => if truthy (Some s) then Some (Cond (regex_i s)) else None
    | None => None
    end.
Proof. key_lookup add_city. Qed.

Lemma filters_property_type c :
  list_properties_filters c !! "property_type" =
    match property_type c with
    | Some s =>
        if truthy (Some s) then Some (Cond (regex_i ("^" +:+ s +:+ "$"))) else None
    | None => None
    end.
Proof. key_lookup add_property_type. Qed.

Lemma filters_featured c :
  list_properties_filters c !! "featured" =
    (fun b => Cond (Equals (VBool b))) <$> featured c.
Proof. key_lookup add_featured. Qed.

Lemma filters_price c :
  list_properties_filters c !! "price" =
    if decide (price_cond c = ∅) then None
    else Some (Cond (Operators (price_cond c))).
Proof. key_lookup add_price. Qed.

Lemma filters_bedrooms c :
  list_properties_filters c !! "bedrooms" =
    (fun n => Cond (Operators {[ "$gte" := VInt n ]})) <$> bedrooms c.
Proof. key_lookup add_bedrooms. Qed.

Lemma filters_bathrooms c :
  list_properties_filters c !! "bathrooms" =
    (fun x => Cond (Operators {[ "$gte" := VFloat x ]})) <$> bathrooms c.
Proof. key_lookup add_bathrooms. Qed.

Lemma filters_or c :
  list_properties_filters c !! "$or" =
    match q c with
    | Some s => if truthy (Some s) then Some (or_group s) else None
    | None => None
    end.
Proof. key_lookup add_q. Qed.

(** No other key is ever set. *)
Lemma filters_other c k :
  k ∉ ["city"; "property_type"; "featured"; "price"; "bedrooms"; "bathrooms"; "$or"] →
  list_properties_filters c !! k = None.
Proof.
  intros Hk. rewrite !not_elem_of_cons in Hk. destruct_and!.
  rewrite list_properties_filters_steps. skip_steps. done.
Qed.

(** ** Satisfaction of a filter *)

Lemma matches_spec (f : filters) (doc : document) :
  matches f doc = true ↔
  ∀ k fv, f !! k = Some fv → entry_holds doc (k, fv) = true.
Proof.
  unfold matches. rewrite forallb_forall. split.
  - intros H k fv Hk. apply H, list_elem_of_In, elem_of_map_to_list. done.
  - intros H [k fv] Hin. apply H, elem_of_map_to_list, list_elem_of_In. done.
Qed.

Lemma matches_empty doc : matches ∅ doc = true.
Proof. unfold matches. by rewrite map_to_list_empty. Qed.


(** The predicate is the conjunction of the seven possible clauses. *)
Lemma matches_filters c doc :
  matches (list_properties_filters c) doc =
    clause_holds (list_properties_filters c) doc "city" &&
    clause_holds (list_properties_filters c) doc "property_type" &&
    clause_holds (list_properties_filters c) doc "featured" &&
    clause_holds (list_properties_filters c) doc "price" &&
    clause_holds (list_properties_filters c) doc "bedrooms" &&
    clause_holds (list_properties_filters c) doc "bathrooms" &&
    clause_holds (list_properties_filters c) doc "$or".
Proof.
  apply eq_true_iff_eq. rewrite matches_spec, !andb_true_iff.
  unfold clause_holds. split.
  - intros H. split_and!; case_match; try done; by apply H.
  - intros H k fv Hk.
    destruct (decide (k ∈ ["city"; "property_type"; "featured"; "price";
                            "bedrooms"; "bathrooms"; "$or"])) as [Hin|Hout].
    + destruct_and!.
      rewrite !elem_of_cons in Hin. rewrite elem_of_nil in Hin.
      destruct_or!; subst k; try done;
        match goal with
        | E : context [list_properties_filters c !! ?key] |- context [(?key, _)] =>
            by rewrite Hk in E
        end.
    + by rewrite filters_other in Hk.
Qed.

(** ** Conditions on a field *)



(** A field holding the number [x] and nothing else. *)
Lemma holds_on_number test (doc : document) k v x :
  doc !! k = Some v → number v = Some x →
  holds_on test (doc !! k) = test v.
Proof.
  intros -> Hv. unfold holds_on.
  destruct v; try done; simpl; by rewrite orb_false_r.
Qed.

Lemma value_gte_spec b v lo x :
  number b = Some lo → number v = Some x →
  value_gte b v = true ↔ (lo <= x)%Q.
Proof. intros Hb Hv. unfold value_gte. rewrite Hb, Hv. apply Qle_bool_iff. Qed.

Lemma value_lte_spec b v hi x :
  number b = Some hi → number v = Some x →
  value_lte b v = true ↔ (x <= hi)%Q.
Proof. intros Hb Hv. unfold value_lte. rewrite Hb, Hv. apply Qle_bool_iff. Qed.

(** A condition on numbers never holds on a field without one. *)
Lemma holds_on_no_number test (doc : document) k :
  (∀ v, number v = None → test v = false) →
  field_numbers doc k = [] → holds_on test (doc !! k) = false.
Proof.
  intros Htest. unfold field_numbers, holds_on.
  destruct (doc !! k) as [v|]; [|done]. intros Hnone.
  apply not_true_is_false. rewrite existsb_exists.
  intros (x & Hin & Hx). apply list_elem_of_In in Hin.
  destruct (number x) as [y|] eqn:E.
  - assert (y ∈ omap number (candidates v)) as Hy.
    { apply list_elem_of_omap. by exists x. }
    rewrite Hnone in Hy. by apply elem_of_nil in Hy.
  - by rewrite Htest in Hx.
Qed.

Lemma price_cond_both c lo hi :
  min_price c = Some lo → max_price c = Some hi →
  price_cond c = {[ "$gte" := VFloat lo; "$lte" := VFloat hi ]}.
Proof.
  intros H1 H2. unfold price_cond. rewrite H1, H2.
  apply map_eq; intros k.
  destruct (decide (k = "$gte")) as [->|]; [by simplify_map_eq|].
  destruct (decide (k = "$lte")) as [->|]; by simplify_map_eq.
Qed.

Lemma price_cond_min c lo :
  min_price c = Some lo → max_price c = None →
  price_cond c = {[ "$gte" := VFloat lo ]}.
Proof. intros H1 H2. unfold price_cond. by rewrite H1, H2. Qed.

Lemma price_cond_max c hi :
  min_price c = None → max_price c = Some hi →
  price_cond c = {[ "$lte" := VFloat hi ]}.
Proof. intros H1 H2. unfold price_cond. by rewrite H1, H2. Qed.

Lemma price_cond_none c :
  min_price c = None → max_price c = None → price_cond c = ∅.
Proof. intros H1 H2. unfold price_cond. by rewrite H1, H2. Qed.

Lemma range_holds lo hi (doc : document) k v x :
  doc !! k = Some v → number v = Some x →
  cond_holds (Operators {[ "$gte" := VFloat lo; "$lte" := VFloat hi ]}) (doc !! k) = true
  ↔ (lo <= x)%Q ∧ (x <= hi)%Q.
Proof.
  intros Hk Hv. unfold cond_holds, operators_hold.
  rewrite lookup_insert_eq.
  rewrite (lookup_insert_ne _ "$gte" "$lte"), lookup_singleton_eq by done.
  rewrite !lookup_insert_ne, !lookup_singleton_ne by done.
  rewrite !(holds_on_number _ _ _ _ _ Hk Hv), andb_true_r, andb_true_iff.
  by rewrite (value_gte_spec _ _ lo x), (value_lte_spec _ _ hi x).
Qed.

Lemma lower_bound_holds b lo (doc : document) k v x :
  number b = Some lo → doc !! k = Some v → number v = Some x →
  cond_holds (Operators {[ "$gte" := b ]}) (doc !! k) = true ↔ (lo <= x)%Q.
Proof.
  intros Hb Hk Hv. unfold cond_holds, operators_hold.
  rewrite lookup_singleton_eq, !lookup_singleton_ne by done.
  rewrite (holds_on_number _ _ _ _ _ Hk Hv), !andb_true_r.
  by apply value_gte_spec.
Qed.

Lemma upper_bound_holds b hi (doc : document) k v x :
  number b = Some hi → doc !! k = Some v → number v = Some x →
  cond_holds (Operators {[ "$lte" := b ]}) (doc !! k) = true ↔ (x <= hi)%Q.
Proof.
  intros Hb Hk Hv. unfold cond_holds, operators_hold.
  rewrite lookup_singleton_eq, !lookup_singleton_ne by done.
  rewrite (holds_on_number _ _ _ _ _ Hk Hv), andb_true_r. simpl.
  by apply value_lte_spec.
Qed.

(** ** The claims on the filter builder *)

Lemma clause_holds_absent (f : filters) doc k : f !! k = None → clause_holds f doc k = true.
Proof. unfold clause_holds. by intros ->. Qed.

Lemma clause_holds_cond (f : filters) doc k c :
  f !! k = Some (Cond c) → clause_holds f doc k = cond_holds c (doc !! k).
Proof. unfold clause_holds. by intros ->. Qed.

Lemma all_absent_no_criteria c :
  city c = None → property_type c = None → min_price c = None →
  max_price c = None → bedrooms c = None → bathrooms c = None →
  q c = None → featured c = None → c = no_criteria.
Proof. destruct c; simpl; by intros -> -> -> -> -> -> -> ->. Qed.

Lemma round_trip_no_fault {A} (op : store → result A * store) st :
  hd false (faults st) = false →
  (round_trip op st).1 = (op (with_faults (tl (faults st)) st)).1 ∨
  (faults st = [] ∧ round_trip op st = op st).
Proof.
  unfold round_trip. destruct (faults st) as [|[] fs]; simpl; try done.
  - by right.
  - by left.
Qed.

Lemma filter_matches_empty (l : list document) : List.filter (matches ∅) l = l.
Proof.
  induction l as [|d l IH]; [done|]. simpl. by rewrite matches_empty, IH.
Qed.

Lemma store_find_no_filter name st :
  store_find name ∅ st = (Ok (collection st name), st).
Proof.
  unfold store_find, filters_valid. rewrite map_to_list_empty. simpl.
  by rewrite filter_matches_empty.
Qed.

Lemma get_documents_no_filter st :
  hd false (faults st) = false →
  (database_get_documents true "property" ∅ st).1 = Ok (collection st "property").
Proof.
  intros Hf. unfold database_get_documents.
  destruct (round_trip_no_fault (store_find "property" ∅) st Hf) as [->|[_ ->]];
    by rewrite store_find_no_filter.
Qed.

Lemma length_comprehension {A B} (f : A → result B) l r :
  comprehension f l = Ok r → length r = length l.
Proof.
  revert r. induction l as [|x l IH]; intros r; simpl.
  - by intros [= <-].
  - destruct (f x); [|done]. destruct (comprehension f l); [|done].
    intros [= <-]. simpl. by rewrite (IH _ eq_refl).
Qed.

(** C1: with every field absent the builder gives the empty dictionary,
    which every document satisfies; on a reachable store the query returns
    the whole property collection, and list_properties returns one entry
    per stored document (it is not an error). *)
Theorem empty_criteria_match_every_document
    {out} (str : value → string) (PropertyOut : document → result out)
    (c : criteria) (st : store) (outs : list out) :
  city c = None → property_type c = None → min_price c = None →
  max_price c = None → bedrooms c = None → bathrooms c = None →
  q c = None → featured c = None →
  hd false (faults st) = false →
  serialize_all str PropertyOut (collection st "property") = Ok outs →
  list_properties_filters c = ∅ ∧
  (∀ doc, matches (list_properties_filters c) doc = true) ∧
  (database_get_documents true "property" (list_properties_filters c) st).1
    = Ok (collection st "property") ∧
  (list_properties str PropertyOut (database_get_documents true) c st).1 = Ok outs ∧
  length outs = length (collection st "property").
Proof.
  intros H1 H2 H3 H4 H5 H6 H7 H8 Hf Hs.
  rewrite (all_absent_no_criteria c) by done.
  assert (list_properties_filters no_criteria = ∅) as Hempty by reflexivity.
  rewrite Hempty. split_and!.
  - done.
  - intros doc. apply matches_empty.
  - by apply get_documents_no_filter.
  - unfold list_properties, try_except, list_properties_body, bind, lift.
    rewrite Hempty.
    pose proof (get_documents_no_filter st Hf) as Hg.
    destruct (database_get_documents true "property" ∅ st) as [r st'].
    simpl in Hg. subst r. by rewrite Hs.
  - by apply length_comprehension in Hs.
Qed.

(** C4: the price clause holds both bounds when both are given and then
    admits exactly the prices of the closed interval; one bound alone gives
    that one operator; bedrooms and bathrooms each give a single "$gte". *)
Theorem range_constraints (c : criteria) (doc : document) :
  (∀ lo hi, min_price c = Some lo → max_price c = Some hi →
     list_properties_filters c !! "price"
       = Some (Cond (Operators {[ "$gte" := VFloat lo; "$lte" := VFloat hi ]})) ∧
     (∀ v x, doc !! "price" = Some v → number v = Some x →
        clause_holds (list_properties_filters c) doc "price" = true
        ↔ (lo <= x)%Q ∧ (x <= hi)%Q) ∧
     (field_numbers doc "price" = [] →
        clause_holds (list_properties_filters c) doc "price" = false)) ∧
  (city c = None → property_type c = None → featured c = None →
   bedrooms c = None → bathrooms c = None → q c = None →
     matches (list_properties_filters c) doc
       = clause_holds (list_properties_filters c) doc "price") ∧
  (∀ lo, min_price c = Some lo → max_price c = None →
     list_properties_filters c !! "price"
       = Some (Cond (Operators {[ "$gte" := VFloat lo ]})) ∧
     (∀ v x, doc !! "price" = Some v → number v = Some x →
        clause_holds (list_properties_filters c) doc "price" = true ↔ (lo <= x)%Q)) ∧
  (∀ hi, min_price c = None → max_price c = Some hi →
     list_properties_filters c !! "price"
       = Some (Cond (Operators {[ "$lte" := VFloat hi ]})) ∧
     (∀ v x, doc !! "price" = Some v → number v = Some x →
        clause_holds (list_properties_filters c) doc "price" = true ↔ (x <= hi)%Q)) ∧
  (min_price c = None → max_price c = None →
     list_properties_filters c !! "price" = None) ∧
  (∀ n, bedrooms c = Some n →
     list_properties_filters c !! "bedrooms"
       = Some (Cond (Operators {[ "$gte" := VInt n ]})) ∧
     (∀ v x, doc !! "bedrooms" = Some v → number v = Some x →
        clause_holds (list_properties_filters c) doc "bedrooms" = true
        ↔ (inject_Z n <= x)%Q)) ∧
  (∀ y, bathrooms c = Some y →
     list_properties_filters c !! "bathrooms"
       = Some (Cond (Operators {[ "$gte" := VFloat y ]})) ∧
     (∀ v x, doc !! "bathrooms" = Some v → number v = Some x →
        clause_holds (list_properties_filters c) doc "bathrooms" = true
        ↔ (y <= x)%Q)).
Proof.
  split_and!.
  - intros lo hi Hlo Hhi.
    assert (list_properties_filters c !! "price"
            = Some (Cond (Operators {[ "$gte" := VFloat lo; "$lte" := VFloat hi ]})))
      as Hp.
    { rewrite filters_price, (price_cond_both c lo hi) by done.
      by case_decide. }
    split_and!; [done| |].
    + intros v x Hv Hx. rewrite (clause_holds_cond _ _ _ _ Hp).
      by apply range_holds with v.
    + intros Hnone. rewrite (clause_holds_cond _ _ _ _ Hp).
      unfold cond_holds, operators_hold. rewrite lookup_insert_eq.
      rewrite holds_on_no_number; [done| |done].
      intros v Hv. unfold value_gte. by rewrite Hv.
  - intros H1 H2 H3 H4 H5 H6. rewrite matches_filters.
    rewrite (clause_holds_absent _ _ "city") by (by rewrite filters_city, H1).
    rewrite (clause_holds_absent _ _ "property_type")
      by (by rewrite filters_property_type, H2).
    rewrite (clause_holds_absent _ _ "featured") by (by rewrite filters_featured, H3).
    rewrite (clause_holds_absent _ _ "bedrooms") by (by rewrite filters_bedrooms, H4).
    rewrite (clause_holds_absent _ _ "bathrooms") by (by rewrite filters_bathrooms, H5).
    rewrite (clause_holds_absent _ _ "$or") by (by rewrite filters_or, H6).
    simpl. by rewrite !andb_true_r.
  - intros lo Hlo Hhi.
    assert (list_properties_filters c !! "price"
            = Some (Cond (Operators {[ "$gte" := VFloat lo ]}))) as Hp.
    { rewrite filters_price, (price_cond_min c lo) by done. by case_decide. }
    split; [done|]. intros v x Hv Hx. rewrite (clause_holds_cond _ _ _ _ Hp).
    by apply lower_bound_holds with v.
  - intros hi Hlo Hhi.
    assert (list_properties_filters c !! "price"
            = Some (Cond (Operators {[ "$lte" := VFloat hi ]}))) as Hp.
    { rewrite filters_price, (price_cond_max c hi) by done. by case_decide. }
    split; [done|]. intros v x Hv Hx. rewrite (clause_holds_cond _ _ _ _ Hp).
    by apply upper_bound_holds with v.
  - intros Hlo Hhi. rewrite filters_price, price_cond_none by done. by case_decide.
  - intros n Hn.
    assert (list_properties_filters c !! "bedrooms"
            = Some (Cond (Operators {[ "$gte" := VInt n ]}))) as Hp.
    { by rewrite filters_bedrooms, Hn. }
    split; [done|]. intros v x Hv Hx. rewrite (clause_holds_cond _ _ _ _ Hp).
    by apply lower_bound_holds with v.
  - intros y Hy.
    assert (list_properties_filters c !! "bathrooms"
            = Some (Cond (Operators {[ "$gte" := VFloat y ]}))) as Hp.
    { by rewrite filters_bathrooms, Hy. }
    split; [done|]. intros v x Hv Hx. rewrite (clause_holds_cond _ _ _ _ Hp).
    by apply lower_bound_holds with v.
Qed.

(** C10: an empty string for city, property_type or q leaves the filter
    as it is without that parameter; every given number (zero included) and
    every given featured flag (False included) sets its clause. *)
Theorem empty_strings_absent_numbers_present
    (ci pt qq : option string) (lo hi ba : option Q) (be : option Z)
    (fe : option bool) :
  list_properties_filters (mk_criteria (Some "") pt lo hi be ba qq fe)
    = list_properties_filters (mk_criteria None pt lo hi be ba qq fe) ∧
  list_properties_filters (mk_criteria ci (Some "") lo hi be ba qq fe)
    = list_properties_filters (mk_criteria ci None lo hi be ba qq fe) ∧
  list_properties_filters (mk_criteria ci pt lo hi be ba (Some "") fe)
    = list_properties_filters (mk_criteria ci pt lo hi be ba None fe) ∧
  (∀ x, ∃ ops,
     list_properties_filters (mk_criteria ci pt (Some x) hi be ba qq fe) !! "price"
       = Some (Cond (Operators ops)) ∧ ops !! "$gte" = Some (VFloat x)) ∧
  (∀ x, ∃ ops,
     list_properties_filters (mk_criteria ci pt lo (Some x) be ba qq fe) !! "price"
       = Some (Cond (Operators ops)) ∧ ops !! "$lte" = Some (VFloat x)) ∧
  (∀ n,
     list_properties_filters (mk_criteria ci pt lo hi (Some n) ba qq fe) !! "bedrooms"
       = Some (Cond (Operators {[ "$gte" := VInt n ]}))) ∧
  (∀ x,
     list_properties_filters (mk_criteria ci pt lo hi be (Some x) qq fe) !! "bathrooms"
       = Some (Cond (Operators {[ "$gte" := VFloat x ]}))) ∧
  (∀ b,
     list_properties_filters (mk_criteria ci pt lo hi be ba qq (Some b)) !! "featured"
       = Some (Cond (Equals (VBool b)))).
Proof.
  split_and!; try reflexivity.
  - intros x. eexists. rewrite filters_price. split.
    + case_decide as E; [|done]. exfalso.
      apply (f_equal (fun m : gmap string value => m !! "$gte")) in E.
      unfold price_cond in E. simpl in E.
      destruct hi; by simplify_map_eq.
    + unfold price_cond. simpl. destruct hi; by simplify_map_eq.
  - intros x. eexists. rewrite filters_price. split.
    + case_decide as E; [|done]. exfalso.
      apply (f_equal (fun m : gmap string value => m !! "$lte")) in E.
      unfold price_cond in E. simpl in E.
      destruct lo; by simplify_map_eq.
    + unfold price_cond. simpl. destruct lo; by simplify_map_eq.
  - intros n. by rewrite filters_bedrooms.
  - intros x. by rewrite filters_bathrooms.
  - intros b. by rewrite filters_featured.
Qed.

(** ** Text constraints *)








(** ** Where the text claims fail as stated *)




(** A query the store rejects is swallowed like any other failure: the
    document titled "(" is not found by q = "(". *)
Example rejected_pattern_gives_nothing :
  (model_list_properties true (only_q "(")
     (mk_store {[ "property" := [ {[ "title" := VStr "(" ]} ] ]} [] 1 some_time)).1
  = Ok [].
Proof. vm_compute. reflexivity. Qed.

(** ** The endpoints *)

Section Endpoints.
Context {S out : Type}.
Variable str : value → string.
Variable PropertyOut : document → result out.
Variable get_documents : string → filters → S → result (list document) * S.
Variable create_document : string → document → S → result string * S.
Variable utcnow : S → datetime * S.

Lemma try_except_returns_empty (body : S → result (list out) * S) s :
  (∃ outs, (try_except body (fun _ => ret []) s).1 = Ok outs) ∧
  (∀ e, (body s).1 = Raise e → (try_except body (fun _ => ret []) s).1 = Ok []) ∧
  (∀ outs, (body s).1 = Ok outs → (try_except body (fun _ => ret []) s).1 = Ok outs).
Proof.
  unfold try_except, ret. destruct (body s) as [[outs|e] s']; simpl.
  - split_and!; [by exists outs|done|done].
  - split_and!; [by exists []|done|done].
Qed.

(** The loop counts the successful inserts and attempts every item. *)
Lemma insert_each_attempts items n s :
  insert_each create_document items n s
  = (Ok (n + count_ok (attempts create_document items s).1),
     (attempts create_document items s).2).
Proof.
  revert n s. induction items as [|item rest IH]; intros n s; simpl.
  - unfold ret, count_ok. simpl. by rewrite Nat.add_0_r.
  - unfold bind at 1. unfold try_except, bind, ret.
    destruct (create_document "property" item s) as [[i|e] s'];
      rewrite IH; destruct (attempts create_document rest s') as [rs s''];
      unfold count_ok; simpl; do 2 f_equal; lia.
Qed.

Lemma length_attempts items s :
  length (attempts create_document items s).1 = length items.
Proof.
  revert s. induction items as [|item rest IH]; intros s; simpl; [done|].
  destruct (create_document "property" item s) as [r s'].
  specialize (IH s'). destruct (attempts create_document rest s') as [rs s''].
  simpl in *. by rewrite IH.
Qed.

Lemma count_ok_le {A} (rs : list (result A)) : (count_ok rs ≤ length rs)%nat.
Proof. unfold count_ok. apply List.filter_length_le. Qed.

Lemma count_ok_all {A} (rs : list (result A)) :
  Forall (fun r => is_ok r = true) rs → count_ok rs = length rs.
Proof.
  unfold count_ok. induction 1 as [|r rs Hr _ IH]; simpl; [done|].
  rewrite Hr. simpl. by rewrite IH.
Qed.
End Endpoints.

(** C5: whatever the store call and the construction of the results do,
    list_properties and featured_properties return a list; when anything
    in the body raises, the list is empty. *)
Theorem list_never_raises {S out} (str : value → string)
    (PropertyOut : document → result out)
    (get_documents : string → filters → S → result (list document) * S)
    (c : criteria) (s : S) :
  (∃ outs, (list_properties str PropertyOut get_documents c s).1 = Ok outs) ∧
  (∀ e, (list_properties_body str PropertyOut get_documents c s).1 = Raise e →
        (list_properties str PropertyOut get_documents c s).1 = Ok []) ∧
  (∃ outs, (featured_properties str PropertyOut get_documents s).1 = Ok outs) ∧
  (∀ e, (featured_properties_body str PropertyOut get_documents s).1 = Raise e →
        (featured_properties str PropertyOut get_documents s).1 = Ok []).
Proof.
  unfold list_properties, featured_properties.
  destruct (try_except_returns_empty
              (list_properties_body str PropertyOut get_documents c) s)
    as (H1 & H2 & _).
  destruct (try_except_returns_empty
              (featured_properties_body str PropertyOut get_documents) s)
    as (H3 & H4 & _).
  done.
Qed.

(** The body raises when the store call does, and when a constructor
    does. *)
Lemma list_properties_body_store_raises {S out} (str : value → string)
    (PropertyOut : document → result out)
    (get_documents : string → filters → S → result (list document) * S) c s e s' :
  get_documents "property" (list_properties_filters c) s = (Raise e, s') →
  (list_properties_body str PropertyOut get_documents c s).1 = Raise e.
Proof. intros H. unfold list_properties_body, bind. by rewrite H. Qed.

Lemma list_properties_body_construction_raises {S out} (str : value → string)
    (PropertyOut : document → result out)
    (get_documents : string → filters → S → result (list document) * S)
    c s docs e s' :
  get_documents "property" (list_properties_filters c) s = (Ok docs, s') →
  serialize_all str PropertyOut docs = Raise e →
  (list_properties_body str PropertyOut get_documents c s).1 = Raise e.
Proof.
  intros H He. unfold list_properties_body, bind, lift. by rewrite H, He.
Qed.

(** ** The point lookup *)

Section Lookup.
Context {S out : Type}.
Variable str : value → string.
Variable PropertyOut : document → result out.
Variable ObjectId : option (string → result value).

Lemma get_property_no_handle property_id (s : S) :
  get_property str PropertyOut None ObjectId property_id s
  = (Raise (HTTPException 503 "Database not available"), s).
Proof. reflexivity. Qed.

Lemma get_property_malformed (db : database S) ctor property_id msg s :
  ObjectId = Some ctor → ctor property_id = Raise (Exception msg) →
  get_property str PropertyOut (Some db) ObjectId property_id s
  = (Raise (HTTPException 400 ("Invalid id: " +:+ msg)), s).
Proof.
  intros -> H. unfold get_property, try_except, bind, lift, raise.
  by rewrite H.
Qed.

Lemma get_property_absent (db : database S) ctor property_id oid s s' :
  ObjectId = Some ctor → ctor property_id = Ok oid →
  find_one db "property" {[ "_id" := Cond (Equals oid) ]} s = (Ok None, s') →
  get_property str PropertyOut (Some db) ObjectId property_id s
  = (Raise (HTTPException 404 "Property not found"), s').
Proof.
  intros -> H Hf. unfold get_property, try_except, bind, lift, raise.
  by rewrite H, Hf.
Qed.

Lemma get_property_found (db : database S) ctor property_id oid doc o s s' :
  ObjectId = Some ctor → ctor property_id = Ok oid →
  find_one db "property" {[ "_id" := Cond (Equals oid) ]} s = (Ok (Some doc), s') →
  doc ≠ ∅ → PropertyOut (serialize_doc str (Some doc)) = Ok o →
  get_property str PropertyOut (Some db) ObjectId property_id s = (Ok o, s').
Proof.
  intros -> H Hf Hne Ho. unfold get_property, try_except, bind, lift, raise.
  rewrite H, Hf. unfold falsy. rewrite bool_decide_eq_false_2 by done.
  by rewrite Ho.
Qed.

(** A store call that fails inside the lookup is reported as an invalid
    identifier. *)
Lemma get_property_store_raises (db : database S) ctor property_id oid msg s s' :
  ObjectId = Some ctor → ctor property_id = Ok oid →
  find_one db "property" {[ "_id" := Cond (Equals oid) ]} s
    = (Raise (Exception msg), s') →
  get_property str PropertyOut (Some db) ObjectId property_id s
  = (Raise (HTTPException 400 ("Invalid id: " +:+ msg)), s').
Proof.
  intros -> H Hf. unfold get_property, try_except, bind, lift, raise.
  by rewrite H, Hf.
Qed.
End Lookup.

(** C6: with the handle initialised and a well-formed identity, a store
    that cannot be reached makes get_property answer 400 "Invalid id", not
    503; the same failure in create_inquiry is answered 503. *)
Theorem get_property_unreachable_store_is_invalid_id :
  bson_ObjectId "000000000000000000000002" = Ok (VObjectId "000000000000000000000002") ∧
  result_map (fun d : document => d !! "title")
    (model_get_property true "000000000000000000000002" seeded_store).1
    = Ok (Some (VStr "Downtown City Apartment")) ∧
  (model_get_property true "000000000000000000000002"
     (with_faults [true] seeded_store)).1
    = Raise (HTTPException 400 "Invalid id: connection failure") ∧
  (create_inquiry (database_create_document true) ∅
     (with_faults [true] seeded_store)).1
    = Raise (HTTPException 503 "Could not save inquiry: connection failure").
Proof. split_and!; vm_compute; reflexivity. Qed.

(** ** Seeding *)

Section Seeding.
Context {S : Type}.
Variable create_document : string → document → S → result string * S.
Variable utcnow : S → datetime * S.

Lemma seed_properties_no_handle s :
  seed_properties create_document None utcnow s
  = (Raise (HTTPException 503 "Database not available"), s).
Proof. reflexivity. Qed.

Lemma seed_properties_populated (db : database S) n s s' :
  count_documents db "property" ∅ s = (Ok n, s') → (0 < n)%nat →
  seed_properties create_document (Some db) utcnow s = (Ok (mk_SeedResult 0), s').
Proof.
  intros Hc Hn. unfold seed_properties, bind. rewrite Hc.
  by rewrite (proj2 (Nat.ltb_lt 0 n) Hn).
Qed.

Lemma seed_properties_count_raises (db : database S) e s s' :
  count_documents db "property" ∅ s = (Raise e, s') →
  seed_properties create_document (Some db) utcnow s = (Raise e, s').
Proof. intros Hc. unfold seed_properties, bind. by rewrite Hc. Qed.
End Seeding.

Lemma store_count_documents_all name st :
  store_count_documents name ∅ st =
    match faults st with
    | true :: fs => (Raise (Exception "connection failure"), with_faults fs st)
    | false :: fs => (Ok (length (collection st name)), with_faults fs st)
    | [] => (Ok (length (collection st name)), st)
    end.
Proof.
  unfold store_count_documents, round_trip.
  destruct (faults st) as [|[] fs]; try done; by rewrite store_find_no_filter.
Qed.

Lemma with_faults_nil st : faults st = [] → with_faults [] st = st.
Proof. destruct st as [cs fs n t]. simpl. by intros ->. Qed.

(** C7: on a store whose property collection is not empty, seed_properties
    returns 0 (when the count itself goes through) and calls no insert:
    whatever create_document would do, the world afterwards differs from the
    one before only by the consumed fault flag; so the collections stay the
    same over any number of calls. *)
Theorem seed_populated_is_noop
    (create_document : string → document → store → result string * store)
    (st : store) (k : nat) :
  collection st "property" ≠ [] →
  (hd false (faults st) = false →
     (seed_properties create_document (database_db true) store_utcnow st).1
       = Ok (mk_SeedResult 0)) ∧
  (seed_properties create_document (database_db true) store_utcnow st).2
    = with_faults (tl (faults st)) st ∧
  collections
    (Nat.iter k
       (fun st => (seed_properties create_document (database_db true)
                                   store_utcnow st).2) st)
  = collections st.
Proof.
  assert (∀ st, collection st "property" ≠ [] →
            (hd false (faults st) = false →
               (seed_properties create_document (database_db true) store_utcnow st).1
                 = Ok (mk_SeedResult 0)) ∧
            (seed_properties create_document (database_db true) store_utcnow st).2
              = with_faults (tl (faults st)) st) as Hstep.
  { clear st. intros st Hne.
    change (database_db true) with (Some store_database).
    pose proof (store_count_documents_all "property" st) as Hc.
    change (store_count_documents "property" ∅ st)
      with (count_documents store_database "property" ∅ st) in Hc.
    destruct (faults st) as [|[] fs] eqn:Hf.
    - rewrite (seed_properties_populated _ _ _ _ _ _ Hc).
      + split; [done|]. simpl. symmetry. by apply with_faults_nil.
      + destruct (collection st "property"); [done|simpl; lia].
    - by rewrite (seed_properties_count_raises _ _ _ _ _ _ Hc).
    - rewrite (seed_properties_populated _ _ _ _ _ _ Hc); [done|].
      destruct (collection st "property"); [done|simpl; lia]. }
  intros Hne. destruct (Hstep st Hne) as [H1 H2]. split_and!; [done|done|].
  induction k as [|k IH]; [done|]. rewrite Nat.iter_succ.
  set (st' := Nat.iter k _ st) in *.
  assert (collection st' "property" ≠ []) as Hne'.
  { unfold collection. by rewrite IH. }
  destruct (Hstep st' Hne') as [_ ->]. done.
Qed.

(** C8: on an empty collection every document of the sample list is
    handed to create_document in order, whatever the earlier outcomes; the
    returned count is the number of inserts that succeeded: at most 3, and 3
    when all succeed. *)
Theorem seed_counts_successful_inserts {S}
    (create_document : string → document → S → result string * S)
    (utcnow : S → datetime * S) (db : database S) (s s0 : S) :
  count_documents db "property" ∅ s = (Ok 0%nat, s0) →
  let r1 := utcnow s0 in
  let r2 := utcnow r1.2 in
  let r3 := utcnow r2.2 in
  let sample := sample_data r1.1 r2.1 r3.1 in
  let outcome := attempts create_document sample r3.2 in
  seed_properties create_document (Some db) utcnow s
    = (Ok (mk_SeedResult (count_ok outcome.1)), outcome.2) ∧
  length sample = 3%nat ∧
  length outcome.1 = 3%nat ∧
  (count_ok outcome.1 ≤ 3)%nat ∧
  (Forall (fun r => is_ok r = true) outcome.1 → count_ok outcome.1 = 3%nat).
Proof.
  intros Hc r1 r2 r3 sample outcome.
  assert (length outcome.1 = 3%nat) as Hlen.
  { unfold outcome. by rewrite length_attempts. }
  split_and!; [|done|done| |].
  - unfold outcome, sample, r3, r2, r1.
    unfold seed_properties, bind. rewrite Hc.
    change (0 <? 0)%nat with false. cbv beta iota.
    destruct (utcnow s0) as [t1 s1]. cbn [fst snd]. cbv beta iota.
    destruct (utcnow s1) as [t2 s2]. cbn [fst snd]. cbv beta iota.
    destruct (utcnow s2) as [t3 s3]. cbn [fst snd]. cbv beta iota.
    rewrite insert_each_attempts. unfold ret. done.
  - rewrite <- Hlen. apply count_ok_le.
  - intros Hall. rewrite <- Hlen. by apply count_ok_all.
Qed.

Example seed_skips_failed_insert :
  (model_seed_properties true
     (with_faults [false; false; true; false] empty_store)).1
    = Ok (mk_SeedResult 2) ∧
  map (fun d : document => d !! "title")
    (collection (model_seed_properties true
                   (with_faults [false; false; true; false] empty_store)).2
                "property")
  = [Some (VStr "Modern Family House"); Some (VStr "Cozy Suburban Condo")].
Proof. split; vm_compute; reflexivity. Qed.

Example seed_twice :
  (model_seed_properties true empty_store).1 = Ok (mk_SeedResult 3) ∧
  (model_seed_properties true seeded_store).1 = Ok (mk_SeedResult 0) ∧
  length (collection (model_seed_properties true seeded_store).2 "property") = 3%nat.
Proof. split_and!; vm_compute; reflexivity. Qed.

Example list_city_metro :
  result_map (map (fun d : document => (d !! "title", d !! "id", d !! "_id")))
    (model_list_properties true (only_city "metro") seeded_store).1
  = Ok [ (Some (VStr "Downtown City Apartment"),
          Some (VStr "000000000000000000000002"), None) ].
Proof. vm_compute. reflexivity. Qed.

(** ** The theorems at concrete inputs *)

Lemma empty_criteria_match_every_document_witness :
  list_properties_filters no_criteria = ∅ ∧
  (∀ doc, matches (list_properties_filters no_criteria) doc = true) ∧
  (database_get_documents true "property" (list_properties_filters no_criteria)
     fixture_store).1
    = Ok (collection fixture_store "property") ∧
  (model_list_properties true no_criteria fixture_store).1
    = Ok [doc_title_x; doc_type_A; doc_city_x] ∧
  length [doc_title_x; doc_type_A; doc_city_x]
    = length (collection fixture_store "property").
Proof.
  apply (empty_criteria_match_every_document id_str accept_all no_criteria
           fixture_store [doc_title_x; doc_type_A; doc_city_x]);
    try reflexivity.
Defined.



Lemma range_constraints_witness :
  clause_holds (list_properties_filters (only_price 200000 400000))
               (doc_price 329000) "price" = true
  ↔ (200000 <= inject_Z 329000)%Q ∧ (inject_Z 329000 <= 400000)%Q.
Proof.
  destruct (range_constraints (only_price 200000 400000) (doc_price 329000))
    as [H _].
  destruct (H 200000%Q 400000%Q eq_refl eq_refl) as (_ & Hiff & _).
  apply (Hiff (VInt 329000)); reflexivity.
Defined.

Lemma list_never_raises_witness :
  (model_list_properties false no_criteria empty_store).1 = Ok [].
Proof.
  destruct (list_never_raises id_str accept_all (database_get_documents false)
              no_criteria empty_store) as (_ & H & _).
  apply (H (Exception "Database not available")). reflexivity.
Defined.

Lemma seed_populated_is_noop_witness :
  (model_seed_properties true fixture_store).1 = Ok (mk_SeedResult 0) ∧
  (model_seed_properties true fixture_store).2
    = with_faults (tl (faults fixture_store)) fixture_store.
Proof.
  assert (collection fixture_store "property" ≠ []) as Hne.
  { assert (collection fixture_store "property"
            = [doc_title_x; doc_type_A; doc_city_x]) as -> by reflexivity.
    discriminate. }
  destruct (seed_populated_is_noop (database_create_document true)
              fixture_store 1 Hne) as (H1 & H2 & _).
  split; [apply H1; reflexivity | exact H2].
Defined.

Lemma seed_counts_successful_inserts_witness :
  (model_seed_properties true empty_store).1
  = Ok (mk_SeedResult
          (count_ok (attempts (database_create_document true)
                       (sample_data some_time some_time some_time)
                       empty_store).1)).
Proof.
  assert (count_documents store_database "property" ∅ empty_store
          = (Ok 0%nat, empty_store)) as Hc by reflexivity.
  destruct (seed_counts_successful_inserts (database_create_document true)
              store_utcnow store_database empty_store empty_store Hc)
    as (H & _).
  exact (f_equal fst H).
Defined.

(** * Further properties *)

(** ** The serializer, field by field *)

(** X1: every field other than "id" and "_id" keeps its key; a datetime
    value becomes its ISO string and every other value (a list holding
    datetimes included) is passed through as it is. *)
Theorem serialize_doc_other_fields (str : value → string) (doc : document) k :
  k ≠ "id" → k ≠ "_id" →
  serialize_doc str (Some doc) !! k = convert_value <$> doc !! k ∧
  (∀ l, doc !! k = Some (VList l) →
        serialize_doc str (Some doc) !! k = Some (VList l)).
Proof.
  intros Hid Hraw.
  assert (serialize_doc str (Some doc) !! k = convert_value <$> doc !! k) as H.
  { destruct (decide (doc = ∅)) as [->|Hne]; [done|].
    rewrite serialize_doc_unfold, lookup_fmap by done. f_equal.
    unfold rename_id. destruct (doc !! "_id"); [|done].
    by rewrite lookup_insert_ne, lookup_delete_ne. }
  split; [done|]. intros l Hl. by rewrite H, Hl.
Qed.

(** X2: a document with an "_id" comes out with "id" set to the string of
    that identity, whatever "id" it held before, and without "_id"; a
    document without "_id" keeps its "id" field. *)
Theorem serialize_doc_identity (str : value → string) (doc : document) :
  (∀ oid, doc !! "_id" = Some oid →
     serialize_doc str (Some doc) !! "id" = Some (VStr (str oid)) ∧
     serialize_doc str (Some doc) !! "_id" = None) ∧
  (doc !! "_id" = None →
     serialize_doc str (Some doc) !! "id" = convert_value <$> doc !! "id").
Proof.
  split.
  - intros oid Hoid. split; [|apply serialize_doc_no_raw_id].
    assert (doc ≠ ∅) as Hne by (intros ->; by rewrite lookup_empty in Hoid).
    rewrite serialize_doc_unfold, lookup_fmap by done.
    unfold rename_id. rewrite Hoid. by rewrite lookup_insert_eq.
  - intros Hnone. destruct (decide (doc = ∅)) as [->|Hne]; [done|].
    rewrite serialize_doc_unfold, lookup_fmap by done.
    unfold rename_id. by rewrite Hnone.
Qed.

(** X3: the keys of the output are the keys of the input with "_id", when
    present, replaced by "id": no other field is added or dropped. *)
Theorem serialize_doc_keys (str : value → string) (doc : document) :
  dom (serialize_doc str (Some doc)) =
    match doc !! "_id" with
    | Some _ => {["id"]} ∪ dom doc ∖ {["_id"]}
    | None => dom doc
    end.
Proof.
  destruct (decide (doc = ∅)) as [->|Hne].
  - rewrite lookup_empty. done.
  - rewrite serialize_doc_unfold by done. rewrite dom_fmap_L.
    unfold rename_id. destruct (doc !! "_id"); [|done].
    by rewrite dom_insert_L, dom_delete_L.
Qed.

(** ** The filter dictionary as a whole *)

(** X4: the builder sets no key besides its seven. *)
Theorem filters_keys (c : criteria) k :
  is_Some (list_properties_filters c !! k) →
  k ∈ ["city"; "property_type"; "featured"; "price"; "bedrooms"; "bathrooms"; "$or"].
Proof.
  intros [fv Hk].
  destruct (decide (k ∈ ["city"; "property_type"; "featured"; "price";
                          "bedrooms"; "bathrooms"; "$or"])) as [Hin|Hout];
    [done|].
  by rewrite filters_other in Hk.
Qed.

Lemma operators_hold_both a b field :
  operators_hold {[ "$gte" := a; "$lte" := b ]} field
  = holds_on (value_gte a) field && holds_on (value_lte b) field.
Proof.
  unfold operators_hold. rewrite lookup_insert_eq.
  rewrite (lookup_insert_ne _ "$gte" "$lte"), lookup_singleton_eq by done.
  rewrite !lookup_insert_ne, !lookup_singleton_ne by done.
  by rewrite andb_true_r.
Qed.

Lemma operators_hold_gte a field :
  operators_hold {[ "$gte" := a ]} field = holds_on (value_gte a) field.
Proof.
  unfold operators_hold.
  rewrite lookup_singleton_eq, !lookup_singleton_ne by done.
  by rewrite !andb_true_r.
Qed.

Lemma operators_hold_lte b field :
  operators_hold {[ "$lte" := b ]} field = holds_on (value_lte b) field.
Proof.
  unfold operators_hold.
  rewrite lookup_singleton_eq, !lookup_singleton_ne by done.
  by rewrite andb_true_r.
Qed.

Lemma price_clause c (doc : document) :
  clause_holds (list_properties_filters c) doc "price" =
    match min_price c with
    | Some lo => holds_on (value_gte (VFloat lo)) (doc !! "price")
    | None => true
    end &&
    match max_price c with
    | Some hi => holds_on (value_lte (VFloat hi)) (doc !! "price")
    | None => true
    end.
Proof.
  unfold clause_holds. rewrite filters_price.
  assert (∀ ops, entry_holds doc ("price", Cond (Operators ops))
                 = operators_hold ops (doc !! "price")) as Hentry by done.
  destruct (min_price c) as [lo|] eqn:Hlo, (max_price c) as [hi|] eqn:Hhi.
  - rewrite (price_cond_both c lo hi) by done. case_decide; [done|].
    rewrite Hentry. apply operators_hold_both.
  - rewrite (price_cond_min c lo) by done. case_decide; [done|].
    by rewrite Hentry, operators_hold_gte, andb_true_r.
  - rewrite (price_cond_max c hi) by done. case_decide; [done|].
    by rewrite Hentry, operators_hold_lte.
  - rewrite (price_cond_none c) by done. by case_decide.
Qed.

Lemma clause_relaxed (f' f : filters) doc k :
  f' !! k = None ∨ f' !! k = f !! k →
  clause_holds f doc k = true → clause_holds f' doc k = true.
Proof. unfold clause_holds. by intros [-> | ->]. Qed.

(** X5: dropping search parameters never loses a result: a document that
    satisfies the filter built from [c] satisfies the filter built from any
    criteria that keeps or drops each parameter of [c]. *)
Theorem relaxed_criteria_keep_matches (c' c : criteria) (doc : document) :
  relaxes c' c →
  matches (list_properties_filters c) doc = true →
  matches (list_properties_filters c') doc = true.
Proof.
  intros (Hci & Hpt & Hlo & Hhi & Hbe & Hba & Hq & Hfe).
  rewrite !matches_filters, !andb_true_iff.
  intros ((((((H1 & H2) & H3) & H4) & H5) & H6) & H7).
  split_and!.
  - revert H1. apply clause_relaxed. rewrite !filters_city.
    destruct Hci as [-> | ->]; [by left|by right].
  - revert H2. apply clause_relaxed. rewrite !filters_property_type.
    destruct Hpt as [-> | ->]; [by left|by right].
  - revert H3. apply clause_relaxed. rewrite !filters_featured.
    destruct Hfe as [-> | ->]; [by left|by right].
  - revert H4. rewrite !price_clause, !andb_true_iff. intros [Ha Hb].
    split.
    + destruct Hlo as [-> | ->]; done.
    + destruct Hhi as [-> | ->]; done.
  - revert H5. apply clause_relaxed. rewrite !filters_bedrooms.
    destruct Hbe as [-> | ->]; [by left|by right].
  - revert H6. apply clause_relaxed. rewrite !filters_bathrooms.
    destruct Hba as [-> | ->]; [by left|by right].
  - revert H7. apply clause_relaxed. rewrite !filters_or.
    destruct Hq as [-> | ->]; [by left|by right].
Qed.

(** X6: [featured_properties] is [list_properties] with featured=True and
    nothing else: same result and same effect, whatever the store and the
    constructor do. *)
Theorem featured_is_list_with_flag {S out} (str : value → string)
    (PropertyOut : document → result out)
    (get_documents : string → filters → S → result (list document) * S) (s : S) :
  featured_properties str PropertyOut get_documents s
  = list_properties str PropertyOut get_documents (only_featured true) s.
Proof.
  unfold featured_properties, list_properties, featured_properties_body,
    list_properties_body.
  assert (list_properties_filters (only_featured true) = featured_filter) as ->
    by reflexivity.
  done.
Qed.

(** X7: the featured clause holds on a document whose flag is the given
    boolean and on no other boolean; a document without the field is not
    matched, by featured=False either. *)
Theorem featured_clause (c : criteria) (b : bool) (doc : document) :
  featured c = Some b →
  list_properties_filters c !! "featured" = Some (Cond (Equals (VBool b))) ∧
  (∀ b', doc !! "featured" = Some (VBool b') →
     clause_holds (list_properties_filters c) doc "featured" = true ↔ b' = b) ∧
  (doc !! "featured" = None →
     clause_holds (list_properties_filters c) doc "featured" = false).
Proof.
  intros Hb.
  assert (list_properties_filters c !! "featured" = Some (Cond (Equals (VBool b))))
    as Hk by (by rewrite filters_featured, Hb).
  split_and!; [done| |].
  - intros b' Hd. rewrite (clause_holds_cond _ _ _ _ Hk), Hd. simpl.
    rewrite orb_false_r. destruct b, b'; simpl; split; done.
  - intros Hd. by rewrite (clause_holds_cond _ _ _ _ Hk), Hd.
Qed.







(** ** The endpoints, case by case *)

Lemma comprehension_raises {A B} (f : A → result B) l x e :
  x ∈ l → f x = Raise e → ∃ e', comprehension f l = Raise e'.
Proof.
  intros Hin Hx. induction l as [|y l IH]; [by apply elem_of_nil in Hin|].
  apply elem_of_cons in Hin as [<-|Hin]; simpl.
  - rewrite Hx. by exists e.
  - destruct (f y) as [b|e1]; [|by exists e1].
    destruct (IH Hin) as [e' ->]. by exists e'.
Qed.

Lemma comprehension_ok {A B} (f : A → result B) l :
  Forall (fun x => is_ok (f x) = true) l →
  ∃ r, comprehension f l = Ok r ∧ Forall2 (fun x y => f x = Ok y) l r.
Proof.
  induction 1 as [|x l Hx _ (r & Hr & H2)]; simpl.
  - exists []. by split.
  - destruct (f x) as [y|e] eqn:E; [|done]. rewrite Hr.
    exists (y :: r). split; [done|]. by constructor.
Qed.

(** X9: the listing is all or nothing: if the constructor rejects one of
    the fetched documents, the endpoint returns the empty list, not the
    documents that were accepted. *)
Theorem list_properties_one_invalid_document {S out} (str : value → string)
    (PropertyOut : document → result out)
    (get_documents : string → filters → S → result (list document) * S)
    (c : criteria) (s s' : S) (docs : list document) (d : document) (e : exn) :
  get_documents "property" (list_properties_filters c) s = (Ok docs, s') →
  d ∈ docs →
  PropertyOut (serialize_doc str (Some d)) = Raise e →
  list_properties str PropertyOut get_documents c s = (Ok [], s').
Proof.
  intros Hg Hin He.
  unfold list_properties, try_except, list_properties_body, bind, lift, ret.
  rewrite Hg. unfold serialize_all.
  destruct (comprehension_raises
              (fun d => PropertyOut (serialize_doc str (Some d))) docs d e Hin He)
    as [e' ->].
  done.
Qed.

(** X10: when the constructor accepts every fetched document, the endpoint
    returns one entry per document, in the order fetched, each built from
    the serialized document; the store is called once. *)
Theorem list_properties_all_valid {S out} (str : value → string)
    (PropertyOut : document → result out)
    (get_documents : string → filters → S → result (list document) * S)
    (c : criteria) (s s' : S) (docs : list document) :
  get_documents "property" (list_properties_filters c) s = (Ok docs, s') →
  Forall (fun d => is_ok (PropertyOut (serialize_doc str (Some d))) = true) docs →
  ∃ outs,
    list_properties str PropertyOut get_documents c s = (Ok outs, s') ∧
    Forall2 (fun d o => PropertyOut (serialize_doc str (Some d)) = Ok o) docs outs.
Proof.
  intros Hg Hall.
  destruct (comprehension_ok
              (fun d => PropertyOut (serialize_doc str (Some d))) docs Hall)
    as (outs & Hr & H2).
  exists outs. split; [|done].
  unfold list_properties, try_except, list_properties_body, bind, lift, ret.
  rewrite Hg. unfold serialize_all. by rewrite Hr.
Qed.

(** X11: whatever the identity parser, the store and the constructor do,
    get_property raises nothing but HTTPException. *)
Theorem get_property_raises_only_http {S out} (str : value → string)
    (PropertyOut : document → result out) (db : option (database S))
    (ObjectId : option (string → result value)) (property_id : string)
    (s : S) (e : exn) :
  (get_property str PropertyOut db ObjectId property_id s).1 = Raise e →
  is_http e = true.
Proof.
  unfold get_property. destruct db as [d|]; [|by intros [= <-]].
  unfold try_except.
  match goal with |- context [match ?m s with _ => _ end] =>
    destruct (m s) as [[o|e0] s'] end.
  - done.
  - destruct e0; unfold raise; by intros [= <-].
Qed.

(** X12: an identity the parser rejects never reaches the store: the
    world is untouched and the answer is 400 with the parser's message. *)
Theorem get_property_malformed_id {S out} (str : value → string)
    (PropertyOut : document → result out) (db : database S)
    (ObjectId : string → result value) (property_id msg : string) (s : S) :
  ObjectId property_id = Raise (Exception msg) →
  get_property str PropertyOut (Some db) (Some ObjectId) property_id s
  = (Raise (HTTPException 400 ("Invalid id: " +:+ msg)), s).
Proof. intros H. by apply get_property_malformed with ObjectId. Qed.


(** X14: seed_properties raises only without a handle (503) or when the
    count raises, and then it raises that exception unchanged; once the
    count has returned it always answers. *)
Theorem seed_properties_raises_only_early {S}
    (create_document : string → document → S → result string * S)
    (db : option (database S)) (utcnow : S → datetime * S) (s : S) (e : exn) :
  (seed_properties create_document db utcnow s).1 = Raise e →
  (db = None ∧ e = HTTPException 503 "Database not available") ∨
  (∃ d, db = Some d ∧ (count_documents d "property" ∅ s).1 = Raise e).
Proof.
  unfold seed_properties. destruct db as [d|].
  - intros H. right. exists d. split; [done|]. revert H.
    unfold bind at 1.
    destruct (count_documents d "property" ∅ s) as [[n|e0] s0];
      [|by intros [= ->]].
    destruct (0 <? n)%nat; [by intros H|].
    unfold bind.
    destruct (utcnow s0) as [t1 s1]. destruct (utcnow s1) as [t2 s2].
    destruct (utcnow s2) as [t3 s3].
    rewrite insert_each_attempts. by intros H.
  - intros [= <-]. by left.
Qed.

(** ** The diagnostic endpoint *)



(** X15: the response lists at most ten collection names, the first ten
    the driver reports, and none when there is no handle or the listing
    fails. *)
Theorem test_database_collections {S} (getenv : string → option string)
    (db : option (database_info S)) (s : S) :
  (∀ d names s', db = Some d → list_collection_names d s = (Ok names, s') →
     (test_database getenv db s).1 !! "collections"
       = Some (VList (VStr <$> take 10 names)) ∧
     (length (take 10 names) ≤ 10)%nat) ∧
  (∀ d e s', db = Some d → list_collection_names d s = (Raise e, s') →
     (test_database getenv db s).1 !! "collections" = Some (VList [])) ∧
  (db = None → (test_database getenv db s).1 !! "collections" = Some (VList [])).
Proof.
  split_and!.
  - intros d names s' -> Hl. split; [|rewrite length_take; lia].
    unfold test_database. rewrite Hl. cbn [fst]. by simplify_map_eq.
  - intros d e s' -> Hl. unfold test_database. rewrite Hl. cbn [fst].
    unfold initial_response, dict. cbn [foldl fst snd]. by simplify_map_eq.
  - intros ->. unfold test_database, initial_response, dict.
    cbn [foldl fst snd]. by simplify_map_eq.
Qed.

(** X16: the response always has the same six keys and reports the
    backend as running; it reports "Connected" exactly when there is a
    handle, also when the listing then fails, and "Connected & Working"
    only when the listing returned. *)
Theorem test_database_status {S} (getenv : string → option string)
    (db : option (database_info S)) (s : S) :
  dom (test_database getenv db s).1
    = list_to_set ["backend"; "database"; "database_url"; "database_name";
                   "connection_status"; "collections"] ∧
  (test_database getenv db s).1 !! "backend" = Some (VStr "✅ Running") ∧
  (test_database getenv db s).1 !! "connection_status"
    = Some (VStr (match db with
                  | Some _ => "Connected"
                  | None => "Not Connected"
                  end)) ∧
  ((test_database getenv db s).1 !! "database"
     = Some (VStr "✅ Connected & Working")
   ↔ ∃ d names s', db = Some d ∧ list_collection_names d s = (Ok names, s')).
Proof.
  split_and!.
  - unfold test_database, initial_response, dict. cbn [foldl fst snd].
    destruct db as [d|]; [destruct (list_collection_names d s) as [[names|e] s']|];
      cbn [fst]; rewrite !dom_insert_L, dom_empty_L; set_solver.
  - unfold test_database, initial_response, dict. cbn [foldl fst snd].
    destruct db as [d|]; [destruct (list_collection_names d s) as [[names|e] s']|];
      cbn [fst]; by simplify_map_eq.
  - unfold test_database, initial_response, dict. cbn [foldl fst snd].
    destruct db as [d|]; [destruct (list_collection_names d s) as [[names|e] s']|];
      cbn [fst]; by simplify_map_eq.
  - unfold test_database, initial_response, dict. cbn [foldl fst snd].
    destruct db as [d|];
      [destruct (list_collection_names d s) as [[names|e] s'] eqn:Hl|];
      cbn [fst]; rewrite lookup_insert_eq.
    + split; [|done]. intros _. by exists d, names, s'.
    + split.
      * intros H. simpl in H. discriminate H.
      * intros (d' & names & s'' & [= <-] & H). by rewrite Hl in H.
    + split; [intros [=]|]. intros (d' & names & s'' & [=] & _).
Qed.


(** ** The endpoints on the store model *)

Lemma hex_digit_ok n : is_hex (hex_digit n) = true ∧ lower (hex_digit n) = hex_digit n.
Proof.
  assert (hex_digit n = hex_digit (n mod 16)) as ->.
  { unfold hex_digit. by rewrite N.Div0.mod_mod. }
  pose proof (N.mod_upper_bound n 16) as Hlt.
  destruct (n mod 16)%N as [|p] eqn:E; [by vm_compute|].
  assert (Pos.to_nat p < 16)%nat as Hp by lia.
  rewrite <- (Pos2Nat.id p).
  destruct (Pos.to_nat p) as [|k] eqn:Ek; [lia|].
  do 15 (destruct k as [|k]; [by vm_compute|]). lia.
Qed.

Lemma hexfill_chars w n :
  length (chars (hexfill w n)) = w ∧
  forallb is_hex (chars (hexfill w n)) = true ∧
  map lower (chars (hexfill w n)) = chars (hexfill w n).
Proof.
  revert n. induction w as [|w IH]; intros n; [done|].
  cbn [hexfill]. rewrite chars_app.
  destruct (IH (n / 16)%N) as (Hlen & Hhex & Hlow).
  destruct (hex_digit_ok n) as [Hd1 Hd2].
  change (chars (String (hex_digit n) "")) with [hex_digit n].
  split_and!.
  - rewrite length_app, Hlen. simpl. lia.
  - rewrite forallb_app, Hhex. simpl. by rewrite Hd1.
  - rewrite map_app, Hlow. simpl. by rewrite Hd2.
Qed.

(** An identity the store assigned parses back to itself. *)
Lemma bson_ObjectId_hexfill n :
  bson_ObjectId (hexfill 24 n) = Ok (VObjectId (hexfill 24 n)).
Proof.
  unfold bson_ObjectId. fold (chars (hexfill 24 n)).
  destruct (hexfill_chars 24 n) as (Hlen & Hhex & Hlow).
  rewrite Hlen, Hhex, Hlow. change (24 =? 24)%nat with true. cbn [andb].
  unfold chars. by rewrite string_of_list_ascii_of_string.
Qed.

Lemma matches_by_id oid (doc : document) :
  oid ≠ VNone →
  matches {[ "_id" := Cond (Equals oid) ]} doc
  = holds_on (value_eqb oid) (doc !! "_id").
Proof.
  intros Hoid. unfold matches. rewrite map_to_list_singleton. simpl.
  rewrite andb_true_r. unfold entry_holds, cond_holds. simpl.
  by destruct oid.
Qed.

Lemma filter_none {A} (p : A → bool) l :
  existsb p l = false → List.filter p l = [].
Proof.
  induction l as [|x l IH]; simpl; [done|].
  intros [Hx Hl]%orb_false_elim. rewrite Hx. by apply IH.
Qed.

Lemma store_find_by_id name hex coll (doc : document) st :
  collection st name = (coll ++ [doc])%list →
  existsb (fun d : document => holds_on (value_eqb (VObjectId hex)) (d !! "_id")) coll
    = false →
  doc !! "_id" = Some (VObjectId hex) →
  store_find name {[ "_id" := Cond (Equals (VObjectId hex)) ]} st = (Ok [doc], st).
Proof.
  intros Hcoll Hnone Hdoc. unfold store_find.
  assert (filters_valid {[ "_id" := Cond (Equals (VObjectId hex)) ]} = true) as ->.
  { unfold filters_valid. by rewrite map_to_list_singleton. }
  rewrite Hcoll, List.filter_app. do 2 f_equal.
  rewrite (List.filter_ext _ (fun d : document =>
             holds_on (value_eqb (VObjectId hex)) (d !! "_id")))
    by (intros d; by apply matches_by_id).
  rewrite (filter_none _ coll Hnone). simpl.
  rewrite matches_by_id, Hdoc by done. simpl.
  by rewrite String.eqb_refl.
Qed.

(** What a successful insert leaves behind. *)
Lemma create_document_stored name (doc : document) st st' id :
  doc !! "_id" = None →
  database_create_document true name doc st = (Ok id, st') →
  ∃ coll,
    collection st' name = (coll ++ [<["_id" := VObjectId id]> doc])%list ∧
    collection st name = coll ∧
    existsb (fun d : document => holds_on (value_eqb (VObjectId id)) (d !! "_id"))
      coll = false ∧
    (∃ n, id = hexfill 24 n).
Proof.
  intros Hid. unfold database_create_document, store_insert_one, round_trip.
  rewrite Hid. cbn [default].
  destruct (faults st) as [|[] fs]; [| done |];
    match goal with
    | |- context [existsb ?p ?l] => destruct (existsb p l) eqn:Hex; [done|]
    end;
    intros [= <- <-]; eexists; (split_and!; [|reflexivity|exact Hex|by eexists]);
    unfold collection at 1; cbn [collections]; by rewrite lookup_insert_eq.
Qed.

(** X18: a document stored through create_document is found again by
    get_property under the identity that was returned: the answer is the
    serialized stored document, with "id" equal to that identity. *)
Theorem created_document_is_found (doc : document) (st st' : store) (id : string) :
  doc !! "_id" = None →
  database_create_document true "property" doc st = (Ok id, st') →
  hd false (faults st') = false →
  (model_get_property true id st').1
    = Ok (serialize_doc id_str (Some (<["_id" := VObjectId id]> doc))) ∧
  serialize_doc id_str (Some (<["_id" := VObjectId id]> doc)) !! "id"
    = Some (VStr id) ∧
  serialize_doc id_str (Some (<["_id" := VObjectId id]> doc)) !! "_id" = None.
Proof.
  intros Hid Hcreate Hf.
  destruct (create_document_stored _ _ _ _ _ Hid Hcreate)
    as (coll & Hcoll & _ & Hnone & n & ->).
  set (stored := <["_id" := VObjectId (hexfill 24 n)]> doc) in *.
  assert (stored !! "_id" = Some (VObjectId (hexfill 24 n))) as Hstored
    by apply lookup_insert_eq.
  split_and!.
  - unfold model_get_property.
    change (database_db true) with (Some store_database).
    assert (∃ s'', find_one store_database "property"
                     {[ "_id" := Cond (Equals (VObjectId (hexfill 24 n))) ]} st'
                   = (Ok (Some stored), s'')) as [s'' Hfind].
    { change (find_one store_database) with store_find_one.
      unfold store_find_one, round_trip.
      destruct (faults st') as [|[] fs] eqn:E; [|done|].
      - rewrite (store_find_by_id _ _ coll stored) by done. by eexists.
      - rewrite (store_find_by_id _ _ coll stored) by done. by eexists. }
    rewrite (get_property_found id_str accept_all (Some bson_ObjectId)
               store_database bson_ObjectId _ _ stored
               (serialize_doc id_str (Some stored)) st' s'' eq_refl
               (bson_ObjectId_hexfill n) Hfind); [done| |done].
    intros Hempty. by rewrite Hempty, lookup_empty in Hstored.
  - destruct (serialize_doc_identity id_str stored) as [H _].
    by destruct (H _ Hstored).
  - apply serialize_doc_no_raw_id.
Qed.

(** ** Seeding on the store model *)

Lemma create_document_length name (doc : document) st :
  length (collection (database_create_document true name doc st).2 name)
  = (length (collection st name)
     + if is_ok (database_create_document true name doc st).1 then 1 else 0)%nat.
Proof.
  unfold database_create_document, store_insert_one, round_trip.
  destruct (faults st) as [|[] fs].
  - destruct (existsb _ _); cbn [fst snd is_ok]; [lia|].
    unfold collection at 1. cbn [collections]. rewrite lookup_insert_eq.
    cbn [default from_option]. unfold id. rewrite length_app. simpl. lia.
  - cbn [fst snd is_ok]. unfold collection, with_faults. cbn [collections]. lia.
  - destruct (existsb _ _); cbn [fst snd is_ok].
    + unfold collection, with_faults. cbn [collections]. lia.
    + unfold collection at 1. cbn [collections]. rewrite lookup_insert_eq.
      cbn [default from_option]. unfold id. rewrite length_app. simpl.
      unfold collection, with_faults. cbn [collections]. lia.
Qed.

Lemma attempts_length items st :
  length (collection (attempts (database_create_document true) items st).2 "property")
  = (length (collection st "property")
     + count_ok (attempts (database_create_document true) items st).1)%nat.
Proof.
  revert st. induction items as [|item rest IH]; intros st.
  - unfold count_ok. simpl. lia.
  - cbn [attempts].
    pose proof (create_document_length "property" item st) as Hstep.
    destruct (database_create_document true "property" item st) as [r st1].
    specialize (IH st1).
    destruct (attempts (database_create_document true) rest st1) as [rs st2].
    cbn [fst snd] in *. rewrite IH, Hstep. unfold count_ok.
    cbn [List.filter]. destruct r; cbn [is_ok length]; lia.
Qed.

Lemma model_seed_empty st :
  collection st "property" = [] →
  hd false (faults st) = false →
  let st0 := with_faults (tl (faults st)) st in
  let outcome :=
    attempts (database_create_document true)
      (sample_data (clock st) (clock st) (clock st)) st0 in
  model_seed_properties true st = (Ok (mk_SeedResult (count_ok outcome.1)), outcome.2).
Proof.
  intros Hempty Hf st0 outcome. subst outcome st0.
  unfold model_seed_properties.
  change (database_db true) with (Some store_database).
  unfold seed_properties, bind.
  change (count_documents store_database "property" ∅ st)
    with (store_count_documents "property" ∅ st).
  rewrite store_count_documents_all, Hempty.
  destruct (faults st) as [|[] fs] eqn:E; [|done|]; cbn [tl length].
  - rewrite (with_faults_nil st E).
    change (0 <? 0)%nat with false. cbv beta iota.
    unfold store_utcnow. cbn [fst snd].
    by rewrite insert_each_attempts.
  - change (0 <? 0)%nat with false. cbv beta iota.
    unfold store_utcnow. cbn [fst snd].
    by rewrite insert_each_attempts.
Qed.

Lemma model_seed_populated st :
  collection st "property" ≠ [] →
  hd false (faults st) = false →
  model_seed_properties true st
  = (Ok (mk_SeedResult 0), with_faults (tl (faults st)) st).
Proof.
  intros Hne Hf. unfold model_seed_properties.
  change (database_db true) with (Some store_database).
  pose proof (store_count_documents_all "property" st) as Hc.
  change (store_count_documents "property" ∅ st)
    with (count_documents store_database "property" ∅ st) in Hc.
  destruct (faults st) as [|[] fs] eqn:E; [|done|].
  - rewrite (seed_properties_populated _ _ _ _ _ _ Hc).
    + simpl. by rewrite (with_faults_nil st E).
    + destruct (collection st "property"); [done|simpl; lia].
  - rewrite (seed_properties_populated _ _ _ _ _ _ Hc); [done|].
    destruct (collection st "property"); [done|simpl; lia].
Qed.

(** X19: on an empty property collection the count that seed_properties
    reports is the number of documents it left in the store; and if it
    stored anything, the next call (when its count goes through) answers 0
    and stores nothing more. *)
Theorem seed_reports_what_it_stored (st st' : store) (r : SeedResult) :
  collection st "property" = [] →
  model_seed_properties true st = (Ok r, st') →
  length (collection st' "property") = inserted r ∧
  ((0 < inserted r)%nat → hd false (faults st') = false →
     (model_seed_properties true st').1 = Ok (mk_SeedResult 0) ∧
     collections (model_seed_properties true st').2 = collections st').
Proof.
  intros Hempty Hseed.
  assert (hd false (faults st) = false) as Hf.
  { destruct (faults st) as [|[] fs] eqn:E; try done. exfalso.
    revert Hseed. unfold model_seed_properties.
    change (database_db true) with (Some store_database).
    pose proof (store_count_documents_all "property" st) as Hc.
    rewrite E in Hc.
    change (store_count_documents "property" ∅ st)
      with (count_documents store_database "property" ∅ st) in Hc.
    by rewrite (seed_properties_count_raises _ _ _ _ _ _ Hc). }
  pose proof (model_seed_empty st Hempty Hf) as Hm. cbv zeta in Hm.
  pose proof (attempts_length (sample_data (clock st) (clock st) (clock st))
                (with_faults (tl (faults st)) st)) as Hlen.
  assert (collection (with_faults (tl (faults st)) st) "property" = []) as Hc0
    by done.
  rewrite Hc0 in Hlen. clear Hc0.
  destruct (attempts (database_create_document true)
              (sample_data (clock st) (clock st) (clock st))
              (with_faults (tl (faults st)) st)) as [rs stf].
  cbn [fst snd length] in *. rewrite Hm in Hseed.
  injection Hseed as <- <-. cbn [inserted].
  split; [lia|]. intros Hpos Hf'.
  rewrite model_seed_populated; [done| |done].
  intros Hnil. rewrite Hnil in Hlen. simpl in Hlen. lia.
Qed.

(** ** The further properties at concrete inputs *)

Lemma serialize_doc_other_fields_witness :
  serialize_doc id_str (Some doc_with_id) !! "title"
  = convert_value <$> doc_with_id !! "title".
Proof.
  assert ("title" ≠ "id") as H1 by discriminate.
  assert ("title" ≠ "_id") as H2 by discriminate.
  exact (proj1 (serialize_doc_other_fields id_str doc_with_id "title" H1 H2)).
Defined.

Lemma serialize_doc_identity_witness :
  serialize_doc id_str (Some doc_with_id) !! "id"
  = Some (VStr "00000000000000000000002a").
Proof.
  destruct (serialize_doc_identity id_str doc_with_id) as [H _].
  destruct (H (VObjectId "00000000000000000000002a") eq_refl) as [Hid _].
  exact Hid.
Defined.

Lemma filters_keys_witness :
  "city" ∈ ["city"; "property_type"; "featured"; "price"; "bedrooms";
            "bathrooms"; "$or"].
Proof.
  apply (filters_keys (only_city "metro") "city").
  exists (Cond (regex_i "metro")). reflexivity.
Defined.

Lemma relaxed_criteria_keep_matches_witness :
  matches (list_properties_filters (only_city "metro")) doc_metro = true.
Proof.
  apply (relaxed_criteria_keep_matches (only_city "metro") criteria_metro_priced).
  - unfold relaxes, dropped_or_kept. simpl.
    repeat split; first [by left | by right].
  - reflexivity.
Defined.

Lemma featured_clause_witness :
  clause_holds (list_properties_filters (only_featured false)) doc_not_featured
               "featured" = true ↔ false = false.
Proof.
  destruct (featured_clause (only_featured false) false doc_not_featured eq_refl)
    as (_ & H & _).
  apply H. reflexivity.
Defined.


Lemma list_properties_one_invalid_document_witness :
  list_properties id_str require_title (database_get_documents true)
    no_criteria fixture_store = (Ok [], fixture_store).
Proof.
  apply (list_properties_one_invalid_document id_str require_title
           (database_get_documents true) no_criteria fixture_store fixture_store
           [doc_title_x; doc_type_A; doc_city_x] doc_type_A
           (Exception "title: field required")).
  - reflexivity.
  - apply list_elem_of_In. simpl. right. left. reflexivity.
  - reflexivity.
Defined.

Lemma list_properties_all_valid_witness :
  ∃ outs,
    list_properties id_str accept_all (database_get_documents true)
      no_criteria fixture_store = (Ok outs, fixture_store) ∧
    Forall2 (fun d o => accept_all (serialize_doc id_str (Some d)) = Ok o)
      [doc_title_x; doc_type_A; doc_city_x] outs.
Proof.
  apply (list_properties_all_valid id_str accept_all
           (database_get_documents true) no_criteria fixture_store fixture_store
           [doc_title_x; doc_type_A; doc_city_x]).
  - reflexivity.
  - repeat constructor.
Defined.

Lemma get_property_raises_only_http_witness :
  is_http (HTTPException 400 "Invalid id: xyz is not a valid ObjectId") = true.
Proof.
  apply (get_property_raises_only_http id_str accept_all (database_db true)
           (Some bson_ObjectId) "xyz" empty_store).
  reflexivity.
Defined.

Lemma get_property_malformed_id_witness :
  get_property id_str accept_all (Some store_database) (Some bson_ObjectId)
    "xyz" fixture_store
  = (Raise (HTTPException 400 ("Invalid id: " +:+ "xyz is not a valid ObjectId")),
     fixture_store).
Proof.
  apply (get_property_malformed_id id_str accept_all store_database
           bson_ObjectId "xyz" "xyz is not a valid ObjectId" fixture_store).
  reflexivity.
Defined.


Lemma seed_properties_raises_only_early_witness :
  (database_db false = None ∧
   HTTPException 503 "Database not available"
   = HTTPException 503 "Database not available") ∨
  (∃ d, database_db false = Some d ∧
        (count_documents d "property" ∅ empty_store).1
        = Raise (HTTPException 503 "Database not available")).
Proof.
  apply (seed_properties_raises_only_early (database_create_document false)
           (database_db false) store_utcnow empty_store).
  reflexivity.
Defined.

Lemma test_database_collections_witness :
  (test_database (fun _ => None) (Some (info_listing twelve_names)) empty_store).1
    !! "collections"
  = Some (VList (VStr <$> take 10 twelve_names)).
Proof.
  destruct (test_database_collections (fun _ => None)
              (Some (info_listing twelve_names)) empty_store) as (H & _ & _).
  exact (proj1 (H (info_listing twelve_names) twelve_names empty_store
                  eq_refl eq_refl)).
Defined.


Lemma created_document_is_found_witness :
  (model_get_property true "000000000000000000000001"
     (database_create_document true "property" doc_title_x empty_store).2).1
  = Ok (serialize_doc id_str
          (Some (<["_id" := VObjectId "000000000000000000000001"]> doc_title_x))).
Proof.
  assert (database_create_document true "property" doc_title_x empty_store
          = (Ok "000000000000000000000001",
             (database_create_document true "property" doc_title_x empty_store).2))
    as Hc.
  { rewrite (surjective_pairing
               (database_create_document true "property" doc_title_x empty_store))
      at 1.
    f_equal. }
  assert (doc_title_x !! "_id" = None) as Hid by reflexivity.
  exact (proj1 (created_document_is_found doc_title_x empty_store _
                  "000000000000000000000001" Hid Hc eq_refl)).
Defined.

Lemma seed_reports_what_it_stored_witness :
  length (collection seeded_store "property") = 3%nat.
Proof.
  assert (model_seed_properties true empty_store
          = (Ok (mk_SeedResult 3), seeded_store)) as Hs.
  { rewrite (surjective_pairing (model_seed_properties true empty_store)) at 1.
    f_equal. }
  assert (collection empty_store "property" = []) as He by reflexivity.
  exact (proj1 (seed_reports_what_it_stored empty_store seeded_store
                  (mk_SeedResult 3) He Hs)).
Defined.
